(** * sports_ics: a shallow embedding of the schedule-to-calendar pipeline

    The development follows [sports_ics.py] function by function:
    [iso_to_utc], [build_calendar], [fetch_league_events] and
    [get_cached_calendar].  Python values coming from the upstream JSON
    are kept dynamically typed ([json]); every operation that can raise in
    Python returns a [result] here, and the functions that talk to the
    network or touch [CACHE] thread a [World]. *)

From Stdlib Require Import Ascii String ZArith QArith.
From stdpp Require Import base option list strings pretty gmap.

Open Scope string_scope.
Open Scope Z_scope.

(** ** Exceptions and results *)

(** The Python exception classes the program can meet.  [RequestException]
    stands for whatever [requests.get], [raise_for_status] or [json()]
    raise. *)
Inductive exn :=
  | KeyError | IndexError | TypeError | AttributeError
  | ValueError | OverflowError | RequestException.

Inductive result (A : Type) :=
  | Ok (a : A)
  | Raise (e : exn).
Arguments Ok {A} a.
Arguments Raise {A} e.

Definition bind {A B} (m : result A) (k : A -> result B) : result B :=
  match m with
  | Ok a => k a
  | Raise e => Raise e
  end.

Declare Scope result_scope.
Delimit Scope result_scope with result.
Notation "'let*' x ':=' m 'in' k" := (bind m (fun x => k))
  (at level 10, x name, m at level 100, k at level 200) : result_scope.
Open Scope result_scope.

(** [try: m  except Exception: h] *)
Definition try_except {A} (m : result A) (h : exn -> result A) : result A :=
  match m with
  | Ok a => Ok a
  | Raise e => h e
  end.

Definition is_ok {A} (m : result A) : bool :=
  match m with Ok _ => true | Raise _ => false end.

(** ** JSON values with Python's dynamic operations *)

(** What [resp.json()] returns.  Numbers are restricted to integers;
    a [str] is a sequence of characters with code points below 256. *)
#[local] Set Warnings "-register-all".
Inductive json :=
  | JNull
  | JBool (b : bool)
  | JInt (n : Z)
  | JStr (s : string)
  | JArr (l : list json)
  | JObj (m : list (string * json)).

(** [bool(v)] *)
Definition py_truthy (v : json) : bool :=
  match v with
  | JNull => false
  | JBool b => b
  | JInt n => negb (n =? 0)
  | JStr s => negb (String.eqb s "")
  | JArr l => match l with [] => false | _ => true end
  | JObj m => match m with [] => false | _ => true end
  end.

(** Lookup in a [dict] with [str] keys. *)
Fixpoint dict_lookup (k : string) (m : list (string * json)) : option json :=
  match m with
  | [] => None
  | (k', v) :: m' => if String.eqb k k' then Some v else dict_lookup k m'
  end.

(** [v.get(k, dflt)]: only a [dict] has the method. *)
Definition py_get (v : json) (k : string) (dflt : json) : result json :=
  match v with
  | JObj m => Ok (default dflt (dict_lookup k m))
  | _ => Raise AttributeError
  end.

(** [v[k]] with a [str] subscript. *)
Definition py_getitem (v : json) (k : string) : result json :=
  match v with
  | JObj m => match dict_lookup k m with
              | Some x => Ok x
              | None => Raise KeyError
              end
  | _ => Raise TypeError
  end.

(** [v[0]] *)
Definition py_getitem0 (v : json) : result json :=
  match v with
  | JArr (x :: _) => Ok x
  | JArr [] => Raise IndexError
  | JStr (String c _) => Ok (JStr (String c ""))
  | JStr "" => Raise IndexError
  | JObj _ => Raise KeyError
  | _ => Raise TypeError
  end.

Fixpoint str_chars (s : string) : list json :=
  match s with
  | "" => []
  | String c s' => JStr (String c "") :: str_chars s'
  end.

(** [iter(v)], run to the end: the elements a [for] loop visits. *)
Definition py_iter (v : json) : result (list json) :=
  match v with
  | JArr l => Ok l
  | JObj m => Ok (map (fun kv => JStr (fst kv)) m)
  | JStr s => Ok (str_chars s)
  | _ => Raise TypeError
  end.

(** [len(v)] *)
Definition py_len (v : json) : result nat :=
  match v with
  | JArr l => Ok (length l)
  | JObj m => Ok (length m)
  | JStr s => Ok (String.length s)
  | _ => Raise TypeError
  end.

(** [v == "literal"] *)
Definition py_eq_str (v : json) (s : string) : bool :=
  match v with
  | JStr s' => String.eqb s' s
  | _ => false
  end.

(** ** [str()] and [repr()], as f-strings use them *)

Definition hex_digit (n : N) : ascii :=
  match n with
  | 0 => "0" | 1 => "1" | 2 => "2" | 3 => "3" | 4 => "4" | 5 => "5"
  | 6 => "6" | 7 => "7" | 8 => "8" | 9 => "9" | 10 => "a" | 11 => "b"
  | 12 => "c" | 13 => "d" | 14 => "e" | _ => "f"
  end%N%char.

Definition printable (c : ascii) : bool :=
  let n := N_of_ascii c in
  ((32 <=? n) && (n <? 127) || (161 <=? n) && negb (n =? 173))%N.

Definition repr_char (quote : ascii) (c : ascii) : string :=
  if Ascii.eqb c "\" then "\\"
  else if Ascii.eqb c quote then String "\" (String quote "")
  else if Ascii.eqb c "010" then "\n"
  else if Ascii.eqb c "013" then "\r"
  else if Ascii.eqb c "009" then "\t"
  else if printable c then String c ""
  else let n := N_of_ascii c in
       String "\" (String "x" (String (hex_digit (n / 16)) (String (hex_digit (n mod 16)) ""))).

Fixpoint str_contains (c : ascii) (s : string) : bool :=
  match s with
  | "" => false
  | String c' s' => Ascii.eqb c c' || str_contains c s'
  end.

Fixpoint repr_chars (quote : ascii) (s : string) : string :=
  match s with
  | "" => ""
  | String c s' => repr_char quote c +:+ repr_chars quote s'
  end.

(** [repr(s)] for a [str]: single quotes, unless the text has a single
    quote and no double quote. *)
Definition repr_str (s : string) : string :=
  let quote : ascii :=
    if str_contains "'" s && negb (str_contains "034" s) then "034"%char else "'"%char in
  String quote (repr_chars quote s +:+ String quote "").

Fixpoint join_comma (l : list string) : string :=
  match l with
  | [] => ""
  | [x] => x
  | x :: l' => x +:+ ", " +:+ join_comma l'
  end.

Fixpoint py_repr (v : json) : string :=
  match v with
  | JNull => "None"
  | JBool true => "True"
  | JBool false => "False"
  | JInt n => pretty n
  | JStr s => repr_str s
  | JArr l => "[" +:+ join_comma (map py_repr l) +:+ "]"
  | JObj m =>
      "{" +:+ join_comma (map (fun kv => repr_str (fst kv) +:+ ": " +:+ py_repr (snd kv)) m) +:+ "}"
  end.

(** [str(v)], which is what [f"{v}"] inserts. *)
Definition py_str (v : json) : string :=
  match v with
  | JStr s => s
  | _ => py_repr v
  end.

(** ** [datetime] *)

(** A [datetime] is kept as its wall-clock reading, counted in microseconds
    from 0001-01-01T00:00:00, with its [tzinfo]: [None] for a naive value,
    [Some off] for a fixed UTC offset of [off] microseconds.  A [date] is
    its proleptic Gregorian ordinal, as [date.toordinal()] gives it. *)
Record datetime := { wall : Z; tzinfo : option Z }.

Definition US_PER_SECOND : Z := 1000000.
Definition US_PER_HOUR : Z := 3600 * US_PER_SECOND.
Definition US_PER_DAY : Z := 24 * US_PER_HOUR.
Definition MAXORDINAL : Z := 3652059.

Definition is_leap (y : Z) : bool :=
  (y mod 4 =? 0) && (negb (y mod 100 =? 0) || (y mod 400 =? 0)).

Definition days_before_year (y : Z) : Z :=
  let y := y - 1 in y * 365 + y / 4 - y / 100 + y / 400.

Definition DAYS_IN_MONTH (m : Z) : Z :=
  match m with
  | 2 => 28
  | 4 | 6 | 9 | 11 => 30
  | _ => 31
  end.

Definition days_in_month (y m : Z) : Z :=
  if (m =? 2) && is_leap y then 29 else DAYS_IN_MONTH m.

Definition DAYS_BEFORE_MONTH (m : Z) : Z :=
  match m with
  | 1 => 0 | 2 => 31 | 3 => 59 | 4 => 90 | 5 => 120 | 6 => 151 | 7 => 181
  | 8 => 212 | 9 => 243 | 10 => 273 | 11 => 304 | _ => 334
  end.

Definition days_before_month (y m : Z) : Z :=
  DAYS_BEFORE_MONTH m + (if (2 <? m) && is_leap y then 1 else 0).

Definition ymd2ord (y m d : Z) : Z :=
  days_before_year y + days_before_month y m + d.

Definition DI400Y : Z := 146097.
Definition DI100Y : Z := 36524.
Definition DI4Y : Z := 1461.

Definition ord2ymd (n : Z) : Z * Z * Z :=
  let n := n - 1 in
  let n400 := n / DI400Y in let n := n mod DI400Y in
  let year := n400 * 400 + 1 in
  let n100 := n / DI100Y in let n := n mod DI100Y in
  let n4 := n / DI4Y in let n := n mod DI4Y in
  let n1 := n / 365 in let n := n mod 365 in
  let year := year + n100 * 100 + n4 * 4 + n1 in
  if (n1 =? 4) || (n100 =? 4) then (year - 1, 12, 31)
  else
    let leapyear := (n1 =? 3) && (negb (n4 =? 24) || (n100 =? 3)) in
    let month := Z.shiftr (n + 50) 5 in
    let preceding := DAYS_BEFORE_MONTH month + (if (2 <? month) && leapyear then 1 else 0) in
    if n <? preceding then
      let month := month - 1 in
      let preceding :=
        preceding - (DAYS_IN_MONTH month
                     + (if (month =? 2) && leapyear then 1 else 0)) in
      (year, month, n - preceding + 1)
    else (year, month, n - preceding + 1).

(** [datetime(y, m, d, hh, mi, ss, us, tzinfo=tz)], for fields in range *)
Definition mk_datetime (y m d hh mi ss us : Z) (tz : option Z) : datetime :=
  {| wall := (ymd2ord y m d - 1) * US_PER_DAY
             + (hh * 3600 + mi * 60 + ss) * US_PER_SECOND + us;
     tzinfo := tz |}.

(** [dt.date()] *)
Definition date_of (dt : datetime) : Z := wall dt / US_PER_DAY + 1.

(** [d + timedelta(days=n)] on a [date] *)
Definition date_add_days (d n : Z) : result Z :=
  let o := d + n in
  if (0 <? o) && (o <=? MAXORDINAL) then Ok o else Raise OverflowError.

(** Rounding to the nearest integer, halves to even. *)
Definition round_half_even (q : Q) : Z :=
  let n := Qnum q in let d := Zpos (Qden q) in
  let f := n / d in
  let r := 2 * (n mod d) in
  if r <? d then f
  else if d <? r then f + 1
  else if Z.even f then f else f + 1.

(** [timedelta(hours=h)], in microseconds, for an [int] or for a float that
    the rational [h] stands for exactly, such as 2.5.  A [timedelta] spans
    -999999999 days up to, not including, 1000000000 days. *)
Definition timedelta_hours (h : Q) : result Z :=
  let us := round_half_even (h * inject_Z US_PER_HOUR) in
  if (-999999999 * US_PER_DAY <=? us) && (us <? 1000000000 * US_PER_DAY)
  then Ok us else Raise OverflowError.

(** [dt + td] *)
Definition datetime_add (dt : datetime) (td : Z) : result datetime :=
  let w := wall dt + td in
  if (0 <=? w) && (w <? MAXORDINAL * US_PER_DAY)
  then Ok {| wall := w; tzinfo := tzinfo dt |}
  else Raise OverflowError.

(** [a - b], in microseconds: both naive or both aware. *)
Definition datetime_sub (a b : datetime) : result Z :=
  match tzinfo a, tzinfo b with
  | None, None => Ok (wall a - wall b)
  | Some oa, Some ob => Ok ((wall a - oa) - (wall b - ob))
  | _, _ => Raise TypeError
  end.

(** [datetime.now(timezone.utc)], for a clock that reads [t] microseconds
    after 0001-01-01T00:00:00 UTC. *)
Definition now_utc (t : Z) : datetime := {| wall := t; tzinfo := Some 0 |}.

(** [dt.astimezone(timezone.utc)] for an aware [dt] with wall-clock reading
    [w] and UTC offset [off].  A zero offset is [timezone.utc] itself and
    the value comes back as it is; otherwise [dt - off] must stay in
    range. *)
Definition astimezone_utc (w off : Z) : result datetime :=
  if off =? 0 then Ok {| wall := w; tzinfo := Some 0 |}
  else
    let u := w - off in
    if (0 <=? u) && (u <? MAXORDINAL * US_PER_DAY)
    then Ok {| wall := u; tzinfo := Some 0 |}
    else Raise OverflowError.

(** *** A reference [datetime.fromisoformat]

    The pipeline below takes the parser as a parameter.  This one reads the
    format the library documents,
    [YYYY-MM-DD[*HH[:MM[:SS[.fff[fff]]]][+HH:MM[:SS[.ffffff]]]]],
    in which a trailing [Z] is not a time zone; it is used to run the
    pipeline on concrete inputs. *)
Module IsoFormat.

Definition digit_val (c : ascii) : option Z :=
  let n := Z.of_N (N_of_ascii c) in
  if (48 <=? n) && (n <=? 57) then Some (n - 48) else None.

Fixpoint parse_digits (n : nat) (s : string) (acc : Z) : option (Z * string) :=
  match n with
  | O => Some (acc, s)
  | S n' =>
      match s with
      | String c s' => d ← digit_val c; parse_digits n' s' (10 * acc + d)
      | EmptyString => None
      end
  end.

Definition expect (c : ascii) (s : string) : option string :=
  match s with
  | String c' s' => if Ascii.eqb c c' then Some s' else None
  | EmptyString => None
  end.

Definition parse_fraction (allow3 : bool) (s : string) : option (Z * string) :=
  match parse_digits 6 s 0 with
  | Some r => Some r
  | None =>
      if allow3 then '(f, r) ← parse_digits 3 s 0; Some (f * 1000, r) else None
  end.

(** [HH[:MM[:SS[.fff[fff]]]]], with what is left of the text *)
Definition parse_hh_mm_ss_ff (allow3 : bool) (s : string)
  : option (Z * Z * Z * Z * string) :=
  '(h, r) ← parse_digits 2 s 0;
  match expect ":" r with
  | Some r =>
      '(m, r) ← parse_digits 2 r 0;
      match expect ":" r with
      | Some r =>
          '(sec, r) ← parse_digits 2 r 0;
          match expect "." r with
          | Some r => '(us, r) ← parse_fraction allow3 r; Some (h, m, sec, us, r)
          | None => Some (h, m, sec, 0, r)
          end
      | None => Some (h, m, 0, 0, r)
      end
  | None => Some (h, 0, 0, 0, r)
  end.

Definition parse_tz (s : string) : option (option Z) :=
  match s with
  | EmptyString => Some None
  | String sg tz =>
      sign ← (if Ascii.eqb sg "+" then Some 1
              else if Ascii.eqb sg "-" then Some (-1) else None);
      let len := String.length tz in
      if negb ((len =? 5)%nat || (len =? 8)%nat || (len =? 15)%nat) then None
      else
        '(h, m, sec, us, r) ← parse_hh_mm_ss_ff false tz;
        let off := sign * ((h * 3600 + m * 60 + sec) * US_PER_SECOND + us) in
        if String.eqb r "" && (Z.abs off <? US_PER_DAY) then Some (Some off) else None
  end.

Definition parse (s : string) : option datetime :=
  '(y, r) ← parse_digits 4 s 0;
  r ← expect "-" r;
  '(m, r) ← parse_digits 2 r 0;
  r ← expect "-" r;
  '(d, r) ← parse_digits 2 r 0;
  if negb ((1 <=? y) && (1 <=? m) && (m <=? 12) && (1 <=? d) && (d <=? days_in_month y m))
  then None
  else
    match r with
    | EmptyString => Some (mk_datetime y m d 0 0 0 0 None)
    | String _ t =>
        '(hh, mi, ss, us, r) ← parse_hh_mm_ss_ff true t;
        if negb ((hh <? 24) && (mi <? 60) && (ss <? 60)) then None
        else tz ← parse_tz r; Some (mk_datetime y m d hh mi ss us tz)
    end.

Definition fromisoformat (s : string) : result datetime :=
  match parse s with
  | Some dt => Ok dt
  | None => Raise ValueError
  end.

End IsoFormat.

(** ** Calendar components *)

(** The properties [build_calendar] adds to an [Event]; [location] and
    [description] keep the upstream value they were given. *)
Record Event := {
  summary : string;
  dtstart : datetime;
  dtend : datetime;
  uid : string;
  location : option json;
  description : option json
}.

Record Calendar := {
  prodid : string;
  version : string;
  components : list Event
}.

Definition bytes : Type := list Byte.byte.

Fixpoint zeros (n : nat) : string :=
  match n with
  | O => ""
  | S n' => String "0" (zeros n')
  end.

Definition zero_pad (width : nat) (s : string) : string :=
  zeros (width - String.length s) +:+ s.

(** How the calendar library writes a date-time value:
    [%04d%02d%02dT%02d%02d%02d], and a [Z] when the zone is UTC. *)
Definition vDatetime_to_ical (dt : datetime) : string :=
  let '(y, m, d) := ord2ymd (date_of dt) in
  let sod := (wall dt mod US_PER_DAY) / US_PER_SECOND in
  zero_pad 4 (pretty y) +:+ zero_pad 2 (pretty m) +:+ zero_pad 2 (pretty d) +:+ "T"
  +:+ zero_pad 2 (pretty (sod / 3600)) +:+ zero_pad 2 (pretty (sod / 60 mod 60))
  +:+ zero_pad 2 (pretty (sod mod 60))
  +:+ (match tzinfo dt with Some 0 => "Z" | _ => "" end).

(** ** Python string methods used by [iso_to_utc] *)

(** [s.endswith(suffix)] *)
Fixpoint endswith (s suffix : string) : bool :=
  String.eqb s suffix ||
  match s with
  | EmptyString => false
  | String _ s' => endswith s' suffix
  end.

(** [s.replace(c, new)] for a one-character [c]: every occurrence. *)
Fixpoint replace (s : string) (c : ascii) (new : string) : string :=
  match s with
  | EmptyString => EmptyString
  | String c' s' =>
      if Ascii.eqb c' c then new +:+ replace s' c new
      else String c' (replace s' c new)
  end.

(** ** The insertion-ordered [dict] that deduplicates games *)

(** Hashable keys: [True] and [1] are the same key, as are [False] and
    [0]. *)
Inductive dict_key :=
  | KNone
  | KInt (n : Z)
  | KStr (s : string).

Global Instance dict_key_eq_dec : EqDecision dict_key.
Proof. solve_decision. Defined.

(** [hash(v)] succeeds *)
Definition py_key (v : json) : result dict_key :=
  match v with
  | JNull => Ok KNone
  | JBool b => Ok (KInt (if b then 1 else 0))
  | JInt n => Ok (KInt n)
  | JStr s => Ok (KStr s)
  | JArr _ | JObj _ => Raise TypeError
  end.

Definition pydict : Type := list (dict_key * json).

(** [d[k] = v]: an existing key keeps its place, a new one goes last. *)
Fixpoint dict_set (k : dict_key) (v : json) (d : pydict) : pydict :=
  match d with
  | [] => [(k, v)]
  | (k', v') :: d' =>
      if decide (k = k') then (k', v) :: d' else (k', v') :: dict_set k v d'
  end.

(** [d.values()] *)
Definition dict_values (d : pydict) : list json := map snd d.

(** ** The world: the cache and the requests sent upstream *)

Record cache_entry := {
  last_fetch : option datetime;
  ical_bytes : option bytes
}.

Record World := {
  CACHE : gmap string cache_entry;
  requests_log : list string
}.

(** [CACHE] as the module creates it. *)
Definition CACHE_init : gmap string cache_entry :=
  <["nfl" := {| last_fetch := None; ical_bytes := None |}]>
  (<["nba" := {| last_fetch := None; ical_bytes := None |}]> ∅).

(** [REFRESH_INTERVAL = timedelta(hours=24)] *)
Definition REFRESH_INTERVAL : Z := 24 * US_PER_HOUR.

(** The world once a GET of [url] has been sent. *)
Definition logged (w : World) (url : string) : World :=
  {| CACHE := CACHE w; requests_log := requests_log w ++ [url] |}.

(** Computations that read and change the world and may raise. *)
Definition M (A : Type) : Type := World -> result A * World.

Definition ret {A} (a : A) : M A := fun w => (Ok a, w).

Definition lift {A} (r : result A) : M A := fun w => (r, w).

Definition bindM {A B} (m : M A) (k : A -> M B) : M B :=
  fun w =>
    match m w with
    | (Ok a, w') => k a w'
    | (Raise e, w') => (Raise e, w')
    end.

Definition try_exceptM {A} (m : M A) (h : exn -> M A) : M A :=
  fun w =>
    match m w with
    | (Ok a, w') => (Ok a, w')
    | (Raise e, w') => h e w'
    end.

Notation "'do*' x ':=' m 'in' k" := (bindM m (fun x => k))
  (at level 10, x name, m at level 100, k at level 200) : result_scope.

(** ** The pipeline *)

Section Pipeline.

(** [datetime.fromisoformat] *)
Variable fromisoformat : string -> result datetime.
(** [Calendar.to_ical] *)
Variable to_ical : Calendar -> bytes.
(** What a GET of a URL yields, after [raise_for_status()] and [json()],
    given the URLs requested before it. *)
Variable upstream : list string -> string -> result json.

(** *** [iso_to_utc] *)

Definition iso_to_utc (dt_str : string) : result datetime :=
  let dt_str :=
    if endswith dt_str "Z" then replace dt_str "Z" "+00:00" else dt_str in
  let* dt := fromisoformat dt_str in
  (* [dt.replace(tzinfo=timezone.utc)] gives a naive [dt] the offset 0 *)
  let off := match tzinfo dt with None => 0 | Some off => off end in
  astimezone_utc (wall dt) off.

(** [iso_to_utc(ev["date"])]: the subscript, then [endswith] on what it
    gave, which only a [str] has. *)
Definition record_start (ev : json) : result datetime :=
  let* d := py_getitem ev "date" in
  match d with
  | JStr dt_str => iso_to_utc dt_str
  | _ => Raise AttributeError
  end.

(** *** [build_calendar] *)

(** [next((t for t in teams if t.get("homeAway") == tag), None)] *)
Fixpoint next_tagged (tag : string) (teams : list json) : result json :=
  match teams with
  | [] => Ok JNull
  | t :: teams' =>
      let* ha := py_get t "homeAway" JNull in
      if py_eq_str ha tag then Ok t else next_tagged tag teams'
  end.

(** Lines 57 to 89 of the loop body, for a record whose start is in the
    window: [Ok None] is [continue], [Ok (Some e)] is
    [cal.add_component(e)]. *)
Definition make_event (uid_prefix : string) (default_hours : Q)
    (ev : json) (start : datetime) : result (option Event) :=
  let* competitions := py_get ev "competitions" (JArr []) in
  let* comp := py_getitem0 competitions in
  let* teams := py_get comp "competitors" (JArr []) in
  let* ts := py_iter teams in
  let* home := next_tagged "home" ts in
  let* away := next_tagged "away" ts in
  if negb (py_truthy home) || negb (py_truthy away) then Ok None
  else
    let* home_team := py_getitem home "team" in
    let* home_name := py_getitem home_team "displayName" in
    let* away_team := py_getitem away "team" in
    let* away_name := py_getitem away_team "displayName" in
    let summary := py_str away_name +:+ " @ " +:+ py_str home_name in
    let* ev_id := py_getitem ev "id" in
    let uid := uid_prefix +:+ "-" +:+ py_str ev_id +:+ "@sports" in
    let* delta := timedelta_hours default_hours in
    let* end_ := datetime_add start delta in
    let* venue_obj := py_get comp "venue" (JObj []) in
    let* venue := py_get venue_obj "fullName" JNull in
    let* status_obj := py_get ev "status" (JObj []) in
    let* status_type := py_get status_obj "type" (JObj []) in
    let* status := py_get status_type "description" JNull in
    Ok (Some {| summary := summary;
                dtstart := start;
                dtend := end_;
                uid := uid;
                location := if py_truthy venue then Some venue else None;
                description := if py_truthy status then Some status else None |}).

(** The body of [for ev in events.values()].  The handler of the date
    step formats [ev.get('id')] into its warning before it continues. *)
Definition translate_record (start_window end_window : Z)
    (uid_prefix : string) (default_hours : Q) (ev : json)
    : result (option Event) :=
  let* parsed :=
    try_except
      (let* start := record_start ev in Ok (Some start))
      (fun _ => let* _ := py_get ev "id" JNull in Ok None) in
  match parsed with
  | None => Ok None
  | Some start =>
      if negb ((start_window <=? date_of start) && (date_of start <=? end_window))
      then Ok None
      else make_event uid_prefix default_hours ev start
  end.

(** The whole loop: the events added to [cal], in order. *)
Fixpoint translate_all (start_window end_window : Z)
    (uid_prefix : string) (default_hours : Q) (evs : list json)
    : result (list Event) :=
  match evs with
  | [] => Ok []
  | ev :: evs' =>
      let* oe := translate_record start_window end_window uid_prefix default_hours ev in
      let* rest := translate_all start_window end_window uid_prefix default_hours evs' in
      Ok (match oe with Some e => e :: rest | None => rest end)
  end.

(** The [cal] object at line 91.  [today] is the date read from the
    clock at line 43. *)
Definition build_calendar_cal (today : Z) (events : pydict)
    (prodid uid_prefix : string) (default_hours : Q) : result Calendar :=
  let* start_window := date_add_days today (-30) in
  let* end_window := date_add_days today 365 in
  let* comps :=
    translate_all start_window end_window uid_prefix default_hours
      (dict_values events) in
  Ok {| prodid := prodid; version := "2.0"; components := comps |}.

Definition build_calendar (today : Z) (events : pydict)
    (prodid uid_prefix : string) (default_hours : Q) : result bytes :=
  let* cal := build_calendar_cal today events prodid uid_prefix default_hours in
  Ok (to_ical cal).

(** *** [fetch_league_events] *)

(** [requests.get(url, timeout=10)], [raise_for_status()], [json()] *)
Definition http_get_json (url : string) : M json :=
  fun w => (upstream (requests_log w) url, logged w url).

(** Lines 139 to 144: the events of one schedule go into
    [events_by_id]. *)
Fixpoint collect_events (evs : list json) (events_by_id : pydict)
    : result pydict :=
  match evs with
  | [] => Ok events_by_id
  | ev :: evs' =>
      let* ev_id := py_get ev "id" JNull in
      if negb (py_truthy ev_id) then collect_events evs' events_by_id
      else
        let* k := py_key ev_id in
        collect_events evs' (dict_set k ev events_by_id)
  end.

Definition schedule_url (sport_path league : string) (team_id : json) : string :=
  "https://site.api.espn.com/apis/site/v2/sports/" +:+ sport_path +:+ "/"
  +:+ league +:+ "/teams/" +:+ py_str team_id +:+ "/schedule".

(** Lines 123 to 144: [for t in teams]. *)
Fixpoint fetch_schedules (sport_path league : string) (teams : list json)
    (events_by_id : pydict) : M pydict :=
  match teams with
  | [] => ret events_by_id
  | t :: teams' =>
      do* team := lift (py_get t "team" JNull) in
      let team_info := if py_truthy team then team else JObj [] in
      do* team_id := lift (py_get team_info "id" JNull) in
      if negb (py_truthy team_id)
      then fetch_schedules sport_path league teams' events_by_id
      else
        do* _ := lift (py_get team_info "displayName" JNull) in
        do* fetched :=
          try_exceptM
            (do* s_data := http_get_json (schedule_url sport_path league team_id) in
             ret (Some s_data))
            (fun _ => ret None) in
        match fetched with
        | None => fetch_schedules sport_path league teams' events_by_id
        | Some s_data =>
            do* events := lift (py_get s_data "events" (JArr [])) in
            do* evs := lift (py_iter events) in
            do* events_by_id' := lift (collect_events evs events_by_id) in
            fetch_schedules sport_path league teams' events_by_id'
        end
  end.

(** The per-league constants of lines 99 to 110. *)
Definition league_config (league : string)
    : result (string * Q * string * string) :=
  if String.eqb league "nfl"
  then Ok ("football", 3%Q, "-//Homepage Sports Calendar//NFL//EN", "nfl")
  else if String.eqb league "nba"
  then Ok ("basketball", (5 # 2)%Q, "-//Homepage Sports Calendar//NBA//EN", "nba")
  else Raise ValueError.

Definition base_team_url (sport_path league : string) : string :=
  "https://site.api.espn.com/apis/site/v2/sports/" +:+ sport_path +:+ "/"
  +:+ league +:+ "/teams".

(** The dedup map at line 146. *)
Definition fetch_events_by_id (sport_path league : string) : M pydict :=
  do* data := http_get_json (base_team_url sport_path league) in
  do* teams := lift (let* sports := py_getitem data "sports" in
                     let* sport := py_getitem0 sports in
                     let* leagues := py_getitem sport "leagues" in
                     let* lg := py_getitem0 leagues in
                     py_getitem lg "teams") in
  do* _ := lift (py_len teams) in
  do* ts := lift (py_iter teams) in
  fetch_schedules sport_path league ts [].

Definition fetch_league_events (today : Z) (league : string) : M bytes :=
  do* cfg := lift (league_config league) in
  let '(sport_path, default_hours, prodid, uid_prefix) := cfg in
  do* events_by_id := fetch_events_by_id sport_path league in
  lift (build_calendar today events_by_id prodid uid_prefix default_hours).

(** *** [get_cached_calendar] *)

Definition cache_lookup (league : string) : M cache_entry :=
  fun w =>
    match CACHE w !! league with
    | Some e => (Ok e, w)
    | None => (Raise KeyError, w)
    end.

Definition cache_store (league : string) (e : cache_entry) : M unit :=
  fun w =>
    (Ok tt, {| CACHE := <[league := e]> (CACHE w); requests_log := requests_log w |}).

(** Lines 173 to 186. *)
Definition refresh (now : datetime) (today : Z) (league : string) : M bytes :=
  try_exceptM
    (do* ical := fetch_league_events today league in
     do* _ := cache_store league {| last_fetch := Some now; ical_bytes := Some ical |} in
     ret ical)
    (fun e =>
       do* league_cache := cache_lookup league in
       match ical_bytes league_cache with
       | Some b => ret b
       | None => lift (Raise e)
       end).

(** [clock] is the reading of line 162, [today] the date line 43 reads
    if a refresh runs. *)
Definition get_cached_calendar (clock : Z) (today : Z) (league : string) : M bytes :=
  let now := now_utc clock in
  do* league_cache := cache_lookup league in
  match last_fetch league_cache, ical_bytes league_cache with
  | Some lf, Some b =>
      do* age := lift (datetime_sub now lf) in
      if REFRESH_INTERVAL <? age
      then refresh now today league
      else ret b
  | _, _ => refresh now today league
  end.

End Pipeline.

(** ** Shapes of upstream records, as the statements below name them *)

Definition is_obj (v : json) : bool :=
  match v with JObj _ => true | _ => false end.

(** A competitor entry whose ["homeAway"] is [tag]. *)
Definition tagged (tag : string) (t : json) : bool :=
  match t with
  | JObj m =>
      match dict_lookup "homeAway" m with
      | Some v => py_eq_str v tag
      | None => false
      end
  | _ => false
  end.

(** The identifier of a record, when it has one that a [dict] keeps:
    present, truthy and hashable. *)
Definition record_key (ev : json) : option dict_key :=
  match py_get ev "id" JNull with
  | Ok ev_id =>
      if py_truthy ev_id
      then match py_key ev_id with Ok k => Some k | Raise _ => None end
      else None
  | Raise _ => None
  end.

(** The records of a schedule response. *)
Definition schedule_events (s_data : json) : list json :=
  match py_get s_data "events" (JArr []) with
  | Ok events => match py_iter events with Ok evs => evs | Raise _ => [] end
  | Raise _ => []
  end.

Definition keys (d : pydict) : list dict_key := map fst d.

(** Every entry of the dedup map sits under the identifier of its own
    record. *)
Definition keyed_by_id (d : pydict) : Prop :=
  Forall (fun kv => record_key (snd kv) = Some (fst kv)) d.

Definition option_list {A} (o : option A) : list A :=
  match o with Some a => [a] | None => [] end.

(** A cache entry as the program leaves it: both fields unset, or both
    set by a refresh that ran when the clock read [t]. *)
Definition entry_wf (e : cache_entry) : Prop :=
  (last_fetch e = None /\ ical_bytes e = None)
  \/ (exists t b, last_fetch e = Some (now_utc t) /\ ical_bytes e = Some b).

(** ** Concrete inputs *)

(** A serializer in the shape of the library's content lines, without
    its folding and escaping; it stands for [to_ical] where the pipeline
    runs on the inputs below. *)
Definition CRLF : string := String "013" (String "010" "").

Definition event_lines (e : Event) : string :=
  "BEGIN:VEVENT" +:+ CRLF
  +:+ "SUMMARY:" +:+ summary e +:+ CRLF
  +:+ "DTSTART:" +:+ vDatetime_to_ical (dtstart e) +:+ CRLF
  +:+ "DTEND:" +:+ vDatetime_to_ical (dtend e) +:+ CRLF
  +:+ "UID:" +:+ uid e +:+ CRLF
  +:+ match location e with Some v => "LOCATION:" +:+ py_str v +:+ CRLF | None => "" end
  +:+ match description e with Some v => "DESCRIPTION:" +:+ py_str v +:+ CRLF | None => "" end
  +:+ "END:VEVENT" +:+ CRLF.

Definition calendar_lines (cal : Calendar) : bytes :=
  list_byte_of_string
    ("BEGIN:VCALENDAR" +:+ CRLF
     +:+ "VERSION:" +:+ version cal +:+ CRLF
     +:+ "PRODID:" +:+ prodid cal +:+ CRLF
     +:+ String.concat "" (map event_lines (components cal))
     +:+ "END:VCALENDAR" +:+ CRLF).

Definition competitor (home_away display_name : string) : json :=
  JObj [("homeAway", JStr home_away);
        ("team", JObj [("displayName", JStr display_name)])].

Definition game (id date home away : string) : json :=
  JObj [("id", JStr id);
        ("date", JStr date);
        ("competitions",
         JArr [JObj [("competitors", JArr [competitor "home" home; competitor "away" away])]])].

Definition chiefs_bills : json :=
  game "401547439" "2025-11-12T18:20Z" "Kansas City Chiefs" "Buffalo Bills".

Definition team_entry (id display_name : string) : json :=
  JObj [("team", JObj [("id", JStr id); ("displayName", JStr display_name)])].

Definition nfl_listing : json :=
  JObj [("sports",
         JArr [JObj [("leagues",
                      JArr [JObj [("teams",
                                   JArr [team_entry "12" "Kansas City Chiefs";
                                         team_entry "2" "Buffalo Bills"])]])]])].

(** An upstream with two NFL teams whose schedules both hold the one
    record [g]. *)
Definition two_team_upstream (g : json) : list string -> string -> result json :=
  fun _ url =>
    if String.eqb url (base_team_url "football" "nfl") then Ok nfl_listing
    else if String.eqb url (schedule_url "football" "nfl" (JStr "12"))
            || String.eqb url (schedule_url "football" "nfl" (JStr "2"))
    then Ok (JObj [("events", JArr [g])])
    else Raise RequestException.

(** An upstream that is down. *)
Definition failing_upstream : list string -> string -> result json :=
  fun _ _ => Raise RequestException.

(** The same fixture on a date long past. *)
Definition old_game : json :=
  game "401547439" "2000-01-01T18:20Z" "Kansas City Chiefs" "Buffalo Bills".

Definition world_init : World := {| CACHE := CACHE_init; requests_log := [] |}.

(** Records that pass the date and window steps and fail further on:
    no ["competitions"] at all, an empty list of them, and a home
    competitor without its ["team"]. *)
Definition record_no_competitions (date : string) : json :=
  JObj [("id", JStr "1"); ("date", JStr date)].

Definition record_empty_competitions (date : string) : json :=
  JObj [("id", JStr "1"); ("date", JStr date); ("competitions", JArr [])].

Definition record_nameless_home (date : string) : json :=
  JObj [("id", JStr "1"); ("date", JStr date);
        ("competitions",
         JArr [JObj [("competitors",
                      JArr [JObj [("homeAway", JStr "home")];
                            competitor "away" "Buffalo Bills"])]])].


(** A record whose competitor list holds a home competitor and a
    [null]: nothing in it is tagged away. *)
Definition record_null_competitor (date : string) : json :=
  JObj [("id", JStr "1"); ("date", JStr date);
        ("competitions",
         JArr [JObj [("competitors",
                      JArr [competitor "home" "Kansas City Chiefs"; JNull])]])].

(** A record with a home competitor only, and one whose date is not a
    date. *)
Definition record_home_only : json :=
  JObj [("id", JStr "7");
        ("date", JStr "2025-11-12T18:20Z");
        ("competitions",
         JArr [JObj [("competitors", JArr [competitor "home" "Kansas City Chiefs"])]])].

Definition record_tbd : json :=
  JObj [("id", JStr "8");
        ("date", JStr "TBD");
        ("competitions",
         JArr [JObj [("competitors",
                      JArr [competitor "home" "Kansas City Chiefs";
                            competitor "away" "Buffalo Bills"])]])].

(** 2025-11-04, a day that has 2025-11-12 in its window. *)
Definition a_today : Z := ymd2ord 2025 11 4.

(** A world whose NFL entry was filled when the clock read [t0]. *)
Definition cached_world (t0 : Z) (b : bytes) : World :=
  {| CACHE := <["nfl" := {| last_fetch := Some (now_utc t0); ical_bytes := Some b |}]>
                CACHE_init;
     requests_log := [] |}.


(** ** The feed server *)

(** What a route hands to Flask: [Response(body, mimetype=...)], whose
    status is 200. *)
Record Response := {
  response : bytes;
  status : Z;
  mimetype : string
}.

Section Routes.

Variable fromisoformat : string -> result datetime.
Variable to_ical : Calendar -> bytes.
Variable upstream : list string -> string -> result json.

(** [GET /nfl.ics] *)
Definition nfl_ics (clock today : Z) : M Response :=
  do* ical_bytes :=
    get_cached_calendar fromisoformat to_ical upstream clock today "nfl" in
  ret {| response := ical_bytes; status := 200; mimetype := "text/calendar" |}.

(** [GET /nba.ics] *)
Definition nba_ics (clock today : Z) : M Response :=
  do* ical_bytes :=
    get_cached_calendar fromisoformat to_ical upstream clock today "nba" in
  ret {| response := ical_bytes; status := 200; mimetype := "text/calendar" |}.

(** The worlds the server can be in: the one the module starts with, and
    those a feed request leaves behind, whatever the clock reads and
    whether the request succeeds or not. *)
Inductive reachable : World -> Prop :=
  | reachable_init : reachable world_init
  | reachable_nfl (w w' : World) (clock today : Z) (r : result Response) :
      reachable w -> nfl_ics clock today w = (r, w') -> reachable w'
  | reachable_nba (w w' : World) (clock today : Z) (r : result Response) :
      reachable w -> nba_ics clock today w = (r, w') -> reachable w'.

End Routes.

(** [GET /] *)
Definition root : string * Z * list (string * string) :=
  ("Sports ICS server is running. Available feeds: /nfl.ics, /nba.ics"
   +:+ String "010" "",
   200,
   [("Content-Type", "text/plain")]).

(** ** More shapes, for the statements on the loops *)

(** [d.get(k)] on the dedup map. *)
Fixpoint pydict_lookup (k : dict_key) (d : pydict) : option json :=
  match d with
  | [] => None
  | (k', v) :: d' => if decide (k = k') then Some v else pydict_lookup k d'
  end.

(** The last record of a schedule that carries the identifier [k]. *)
Fixpoint last_with_key (k : dict_key) (evs : list json) : option json :=
  match evs with
  | [] => None
  | ev :: evs' =>
      match last_with_key k evs' with
      | Some ev' => Some ev'
      | None => if decide (record_key ev = Some k) then Some ev else None
      end
  end.

(** The teams of a listing response, [data["sports"][0]["leagues"][0]["teams"]]. *)
Definition listing_teams (data : json) : result json :=
  let* sports := py_getitem data "sports" in
  let* sport := py_getitem0 sports in
  let* leagues := py_getitem sport "leagues" in
  let* lg := py_getitem0 leagues in
  py_getitem lg "teams".

(** The schedule URL the loop requests for a team entry, if the entry has a
    truthy identifier. *)
Definition team_request (sport_path league : string) (t : json) : option string :=
  match py_get t "team" JNull with
  | Ok team =>
      match py_get (if py_truthy team then team else JObj []) "id" JNull with
      | Ok team_id =>
          if py_truthy team_id then Some (schedule_url sport_path league team_id)
          else None
      | Raise _ => None
      end
  | Raise _ => None
  end.

(** A team entry the loop can read: an object whose ["team"] is absent,
    falsy or an object. *)
Definition team_ok (t : json) : bool :=
  match t with
  | JObj m =>
      match dict_lookup "team" m with
      | Some team => negb (py_truthy team) || is_obj team
      | None => true
      end
  | _ => false
  end.

(** A key that came from a [str] identifier. *)
Definition is_str_key (k : dict_key) : bool :=
  match k with KStr _ => true | _ => false end.

(** A listing with one team, ["12"], and an upstream that serves it and the
    schedule [events] for that team. *)
Definition one_team_listing : json :=
  JObj [("sports",
         JArr [JObj [("leagues",
                      JArr [JObj [("teams",
                                   JArr [team_entry "12" "Kansas City Chiefs"])]])]])].

Definition one_team_upstream (events : list json) : list string -> string -> result json :=
  fun _ url =>
    if String.eqb url (base_team_url "football" "nfl") then Ok one_team_listing
    else if String.eqb url (schedule_url "football" "nfl" (JStr "12"))
    then Ok (JObj [("events", JArr events)])
    else Raise RequestException.

(** An upstream whose listing works and whose schedules all fail. *)
Definition listing_only_upstream : list string -> string -> result json :=
  fun _ url =>
    if String.eqb url (base_team_url "football" "nfl") then Ok nfl_listing
    else Raise RequestException.

(** What the two-team upstream leads to: the event of [chiefs_bills], the
    NFL calendar around a list of events, and the world after the listing
    and both schedules were requested. *)
Definition chiefs_bills_event : Event :=
  {| summary := "Buffalo Bills @ Kansas City Chiefs";
     dtstart := mk_datetime 2025 11 12 18 20 0 0 (Some 0);
     dtend := mk_datetime 2025 11 12 21 20 0 0 (Some 0);
     uid := "nfl-401547439@sports";
     location := None;
     description := None |}.

Definition nfl_calendar (events : list Event) : Calendar :=
  {| prodid := "-//Homepage Sports Calendar//NFL//EN";
     version := "2.0";
     components := events |}.

Definition two_teams_fetched (w : World) : World :=
  logged (logged (logged w (base_team_url "football" "nfl"))
            (schedule_url "football" "nfl" (JStr "12")))
    (schedule_url "football" "nfl" (JStr "2")).

(** * Properties *)

Open Scope list_scope.

(** ** The [result] monad *)

Lemma bind_ok_inv {A B} (m : result A) (k : A -> result B) (b : B) :
  bind m k = Ok b -> exists a, m = Ok a /\ k a = Ok b.
Proof. destruct m as [a|e]; simpl; [eauto | discriminate]. Qed.

Lemma bind_raise_inv {A B} (m : result A) (k : A -> result B) (e : exn) :
  bind m k = Raise e -> m = Raise e \/ exists a, m = Ok a /\ k a = Raise e.
Proof. destruct m as [a|e']; simpl; [eauto | intros [= ->]; auto]. Qed.

Ltac inv_bind H :=
  repeat match type of H with
         | bind ?m _ = Ok _ =>
             let a := fresh "a" in
             let Ha := fresh "Ha" in
             destruct m as [a|] eqn:Ha; simpl in H; [|discriminate H]
         end.

(** ** Strings *)




Lemma append_cons (x : ascii) (a b : string) :
  String x a +:+ b = String x (a +:+ b).
Proof. reflexivity. Qed.



Section Facts.

Variable fromisoformat : string -> result datetime.
Variable to_ical : Calendar -> bytes.
Variable upstream : list string -> string -> result json.

(** ** [iso_to_utc] *)


Lemma astimezone_utc_ok (w off : Z) (dt : datetime) :
  astimezone_utc w off = Ok dt -> wall dt = w - off /\ tzinfo dt = Some 0.
Proof.
  unfold astimezone_utc. destruct (off =? 0) eqn:Hoff.
  - apply Z.eqb_eq in Hoff. intros [= <-]. simpl. split; [lia | reflexivity].
  - destruct (_ && _); intros [= <-]; simpl. split; reflexivity.
Qed.


(** ** The loop of [build_calendar] *)

Lemma translate_all_app sw ew prefix hours (l1 l2 : list json) :
  translate_all fromisoformat sw ew prefix hours (l1 ++ l2)
  = let* a := translate_all fromisoformat sw ew prefix hours l1 in
    let* b := translate_all fromisoformat sw ew prefix hours l2 in
    Ok (a ++ b).
Proof.
  induction l1 as [|ev l1 IH]; simpl.
  - by destruct (translate_all _ _ _ _ _ l2).
  - destruct (translate_record _ _ _ _ _ ev) as [oe|]; simpl; [|reflexivity].
    rewrite IH.
    destruct (translate_all _ _ _ _ _ l1); simpl; [|reflexivity].
    destruct (translate_all _ _ _ _ _ l2); simpl; [|reflexivity].
    by destruct oe.
Qed.

Lemma translate_all_skip sw ew prefix hours (l1 l2 : list json) (ev : json) :
  translate_record fromisoformat sw ew prefix hours ev = Ok None ->
  translate_all fromisoformat sw ew prefix hours (l1 ++ ev :: l2)
  = translate_all fromisoformat sw ew prefix hours (l1 ++ l2).
Proof.
  intros Hev. rewrite !translate_all_app. simpl. rewrite Hev. simpl.
  destruct (translate_all _ _ _ _ _ l1); simpl; [|reflexivity].
  by destruct (translate_all _ _ _ _ _ l2).
Qed.

Lemma translate_all_raise sw ew prefix hours (l1 l2 : list json) (ev : json) (e : exn) :
  translate_record fromisoformat sw ew prefix hours ev = Raise e ->
  is_ok (translate_all fromisoformat sw ew prefix hours (l1 ++ ev :: l2)) = false
  /\ (forall c1, translate_all fromisoformat sw ew prefix hours l1 = Ok c1 ->
        translate_all fromisoformat sw ew prefix hours (l1 ++ ev :: l2) = Raise e).
Proof.
  intros Hev. rewrite translate_all_app. simpl. rewrite Hev. simpl.
  split.
  - by destruct (translate_all _ _ _ _ _ l1).
  - by intros c1 ->.
Qed.

Lemma dict_values_insert (d1 d2 : pydict) (k : dict_key) (ev : json) :
  dict_values (d1 ++ (k, ev) :: d2) = dict_values d1 ++ ev :: dict_values d2.
Proof. unfold dict_values. by rewrite map_app. Qed.

Lemma dict_values_app (d1 d2 : pydict) :
  dict_values (d1 ++ d2) = dict_values d1 ++ dict_values d2.
Proof. unfold dict_values. by rewrite map_app. Qed.

(** A record the loop skips at every window leaves the calendar as it
    would be without it. *)
Lemma build_calendar_skip today (d1 d2 : pydict) k ev prodid prefix hours :
  (forall sw ew, translate_record fromisoformat sw ew prefix hours ev = Ok None) ->
  build_calendar fromisoformat to_ical today (d1 ++ (k, ev) :: d2) prodid prefix hours
  = build_calendar fromisoformat to_ical today (d1 ++ d2) prodid prefix hours.
Proof.
  intros Hev. unfold build_calendar, build_calendar_cal.
  destruct (date_add_days today (-30)) as [sw|]; simpl; [|reflexivity].
  destruct (date_add_days today 365) as [ew|]; simpl; [|reflexivity].
  by rewrite dict_values_insert, dict_values_app, translate_all_skip.
Qed.

Lemma date_add_days_ok (d n o : Z) :
  date_add_days d n = Ok o -> o = d + n.
Proof. unfold date_add_days. destruct (_ && _); by intros [= <-]. Qed.

(** A record whose later steps raise takes the whole batch with it. *)
Lemma build_calendar_raise today (d1 d2 : pydict) k ev prodid prefix hours e :
  translate_record fromisoformat (today - 30) (today + 365) prefix hours ev = Raise e ->
  is_ok (build_calendar fromisoformat to_ical today (d1 ++ (k, ev) :: d2)
           prodid prefix hours) = false
  /\ (forall c1,
        31 <= today <= MAXORDINAL - 365 ->
        translate_all fromisoformat (today - 30) (today + 365) prefix hours
          (dict_values d1) = Ok c1 ->
        build_calendar fromisoformat to_ical today (d1 ++ (k, ev) :: d2)
          prodid prefix hours = Raise e).
Proof.
  intros Hev. unfold build_calendar, build_calendar_cal. split.
  - destruct (date_add_days today (-30)) as [sw|] eqn:Hsw; simpl; [|reflexivity].
    destruct (date_add_days today 365) as [ew|] eqn:Hew; simpl; [|reflexivity].
    apply date_add_days_ok in Hsw as ->. apply date_add_days_ok in Hew as ->.
    rewrite dict_values_insert.
    replace (today + -30) with (today - 30) by lia.
    pose proof (translate_all_raise (today - 30) (today + 365) prefix hours
                  (dict_values d1) (dict_values d2) ev e Hev) as [Hno _].
    by destruct (translate_all _ _ _ _ _ _).
  - intros c1 Htoday Hc1. unfold date_add_days, MAXORDINAL in *.
    replace ((0 <? today + -30) && (today + -30 <=? 3652059)) with true by lia.
    replace ((0 <? today + 365) && (today + 365 <=? 3652059)) with true by lia.
    simpl. rewrite dict_values_insert.
    replace (today + -30) with (today - 30) by lia.
    pose proof (translate_all_raise (today - 30) (today + 365) prefix hours
                  (dict_values d1) (dict_values d2) ev e Hev) as [_ Hr].
    by rewrite (Hr c1 Hc1).
Qed.


(** ** One record *)

Lemma translate_record_date_failed sw ew prefix hours fields e :
  record_start fromisoformat (JObj fields) = Raise e ->
  translate_record fromisoformat sw ew prefix hours (JObj fields) = Ok None.
Proof. intros H. unfold translate_record. by rewrite H. Qed.


Lemma translate_record_inside sw ew prefix hours ev start :
  record_start fromisoformat ev = Ok start ->
  sw <= date_of start <= ew ->
  translate_record fromisoformat sw ew prefix hours ev
  = make_event prefix hours ev start.
Proof.
  intros H Hin. unfold translate_record. rewrite H. simpl.
  by replace ((sw <=? date_of start) && (date_of start <=? ew)) with true by lia.
Qed.

Lemma make_event_dtstart prefix hours ev start e :
  make_event prefix hours ev start = Ok (Some e) -> dtstart e = start.
Proof.
  unfold make_event. intros H. inv_bind H.
  destruct (negb _ || negb _); [discriminate|].
  inv_bind H. by injection H as <-.
Qed.

Lemma translate_record_event sw ew prefix hours ev e :
  translate_record fromisoformat sw ew prefix hours ev = Ok (Some e) ->
  record_start fromisoformat ev = Ok (dtstart e)
  /\ sw <= date_of (dtstart e) <= ew.
Proof.
  unfold translate_record. intros H.
  destruct (record_start fromisoformat ev) as [start|err]; simpl in H.
  - destruct ((sw <=? date_of start) && (date_of start <=? ew)) eqn:Hw;
      simpl in H; [|discriminate].
    apply make_event_dtstart in H as ->. split; [reflexivity | lia].
  - by destruct (py_get ev "id" JNull).
Qed.


(** ** Competitors *)

Lemma next_tagged_objs tag (ts : list json) :
  forallb is_obj ts = true ->
  exists h, next_tagged tag ts = Ok h
            /\ (existsb (tagged tag) ts = false -> h = JNull).
Proof.
  induction ts as [|t ts IH]; simpl; intros Hobj.
  - by exists JNull.
  - apply andb_prop in Hobj as [Ht Hts].
    destruct t as [| | | | |m]; try discriminate. simpl.
    destruct (dict_lookup "homeAway" m) as [v|]; simpl.
    + destruct (py_eq_str v tag); [by exists (JObj m)|]. by apply IH.
    + by apply IH.
Qed.


Lemma make_event_missing prefix hours fields comp others ts start :
  dict_lookup "competitions" fields = Some (JArr (JObj comp :: others)) ->
  default (JArr []) (dict_lookup "competitors" comp) = JArr ts ->
  forallb is_obj ts = true ->
  existsb (tagged "home") ts && existsb (tagged "away") ts = false ->
  make_event prefix hours (JObj fields) start = Ok None.
Proof.
  intros Hc Hts Hobj Hmiss. unfold make_event. simpl.
  rewrite Hc. simpl. rewrite Hts. simpl.
  destruct (next_tagged_objs "home" ts Hobj) as (home & -> & Hhome).
  destruct (next_tagged_objs "away" ts Hobj) as (away & -> & Haway).
  simpl. apply andb_false_iff in Hmiss as [H|H].
  - by rewrite (Hhome H).
  - rewrite (Haway H). simpl. by rewrite orb_true_r.
Qed.



(** ** A record the loop turns into an event *)






(** C6: a record whose first competition is an object with a competitor
    list of objects (or with none), in which no entry is tagged home or no
    entry is tagged away, gives no event and raises nothing, whatever its
    date and the window; the batch comes out as if the record were not in
    it. *)
Theorem missing_competitor_skipped
    (fields comp : list (string * json)) (others ts : list json)
    (today : Z) (d1 d2 : pydict) (k : dict_key)
    (prodid prefix : string) (hours : Q) :
  dict_lookup "competitions" fields = Some (JArr (JObj comp :: others)) ->
  default (JArr []) (dict_lookup "competitors" comp) = JArr ts ->
  forallb is_obj ts = true ->
  existsb (tagged "home") ts && existsb (tagged "away") ts = false ->
  (forall sw ew,
      translate_record fromisoformat sw ew prefix hours (JObj fields) = Ok None)
  /\ build_calendar fromisoformat to_ical today
       (d1 ++ (k, JObj fields) :: d2) prodid prefix hours
     = build_calendar fromisoformat to_ical today (d1 ++ d2) prodid prefix hours.
Proof.
  intros Hc Hts Hobj Hmiss.
  assert (Hskip : forall sw ew,
    translate_record fromisoformat sw ew prefix hours (JObj fields) = Ok None).
  { intros sw ew.
    destruct (record_start fromisoformat (JObj fields)) as [start|e] eqn:Hs.
    - unfold translate_record. rewrite Hs. simpl.
      destruct ((sw <=? date_of start) && (date_of start <=? ew)); simpl;
        [|reflexivity].
      eauto using make_event_missing.
    - eauto using translate_record_date_failed. }
  split; [exact Hskip | by apply build_calendar_skip].
Qed.

(** C7: a record whose date string [iso_to_utc] cannot read is skipped,
    and the batch comes out as if the record were not in it: the failure
    stays with that one record. *)
Theorem unparseable_date_skipped
    (fields : list (string * json)) (dt_str : string) (e : exn)
    (today : Z) (d1 d2 : pydict) (k : dict_key)
    (prodid prefix : string) (hours : Q) :
  dict_lookup "date" fields = Some (JStr dt_str) ->
  iso_to_utc fromisoformat dt_str = Raise e ->
  (forall sw ew,
      translate_record fromisoformat sw ew prefix hours (JObj fields) = Ok None)
  /\ build_calendar fromisoformat to_ical today
       (d1 ++ (k, JObj fields) :: d2) prodid prefix hours
     = build_calendar fromisoformat to_ical today (d1 ++ d2) prodid prefix hours.
Proof.
  intros Hd He.
  assert (Hs : record_start fromisoformat (JObj fields) = Raise e).
  { unfold record_start. simpl. rewrite Hd. simpl. exact He. }
  split; [|apply build_calendar_skip]; eauto using translate_record_date_failed.
Qed.

Lemma record_start_date (fields : list (string * json)) (dt_str : string) :
  dict_lookup "date" fields = Some (JStr dt_str) ->
  record_start fromisoformat (JObj fields) = iso_to_utc fromisoformat dt_str.
Proof. intros H. unfold record_start. simpl. by rewrite H. Qed.

(** C10: given any date string that parses to a start inside the window,
    there are records with it (no competitions, an empty list of them, a
    home competitor without its team) on which the loop body raises, and
    any batch that holds one makes [build_calendar] raise.  In general,
    whatever the steps after the window check raise goes out of
    [build_calendar]: only the date step is recovered from. *)
Theorem later_failures_abort_batch
    (dt_str : string) (start : datetime) (today : Z)
    (prefix : string) (hours : Q) :
  iso_to_utc fromisoformat dt_str = Ok start ->
  today - 30 <= date_of start <= today + 365 ->
  (exists ev e,
      record_start fromisoformat ev = Ok start
      /\ (forall competitions, py_getitem ev "competitions" <> Ok competitions)
      /\ translate_record fromisoformat (today - 30) (today + 365) prefix hours ev
         = Raise e
      /\ forall d1 d2 k prodid,
           is_ok (build_calendar fromisoformat to_ical today
                    (d1 ++ (k, ev) :: d2) prodid prefix hours) = false)
  /\ (exists ev e,
        record_start fromisoformat ev = Ok start
        /\ py_getitem ev "competitions" = Ok (JArr [])
        /\ translate_record fromisoformat (today - 30) (today + 365) prefix hours ev
           = Raise e
        /\ forall d1 d2 k prodid,
             is_ok (build_calendar fromisoformat to_ical today
                      (d1 ++ (k, ev) :: d2) prodid prefix hours) = false)
  /\ (exists ev e home,
        record_start fromisoformat ev = Ok start
        /\ (let* competitions := py_getitem ev "competitions" in
            let* comp := py_getitem0 competitions in
            let* teams := py_getitem comp "competitors" in
            py_getitem0 teams) = Ok home
        /\ tagged "home" home = true
        /\ py_getitem home "team" = Raise KeyError
        /\ translate_record fromisoformat (today - 30) (today + 365) prefix hours ev
           = Raise e
        /\ forall d1 d2 k prodid,
             is_ok (build_calendar fromisoformat to_ical today
                      (d1 ++ (k, ev) :: d2) prodid prefix hours) = false)
  /\ (forall ev st e,
        record_start fromisoformat ev = Ok st ->
        today - 30 <= date_of st <= today + 365 ->
        make_event prefix hours ev st = Raise e ->
        translate_record fromisoformat (today - 30) (today + 365) prefix hours ev
        = Raise e
        /\ forall d1 d2 k prodid,
             is_ok (build_calendar fromisoformat to_ical today
                      (d1 ++ (k, ev) :: d2) prodid prefix hours) = false
             /\ (forall c1,
                   31 <= today <= MAXORDINAL - 365 ->
                   translate_all fromisoformat (today - 30) (today + 365)
                     prefix hours (dict_values d1) = Ok c1 ->
                   build_calendar fromisoformat to_ical today
                     (d1 ++ (k, ev) :: d2) prodid prefix hours = Raise e)).
Proof.
  intros Hs Hin.
  assert (Hgen : forall ev st e,
    record_start fromisoformat ev = Ok st ->
    today - 30 <= date_of st <= today + 365 ->
    make_event prefix hours ev st = Raise e ->
    translate_record fromisoformat (today - 30) (today + 365) prefix hours ev
    = Raise e).
  { intros ev st e H1 H2 H3. by rewrite (translate_record_inside _ _ _ _ _ _ H1 H2). }
  split; [|split; [|split]].
  - exists (record_no_competitions dt_str), IndexError.
    assert (Hr : record_start fromisoformat (record_no_competitions dt_str) = Ok start).
    { unfold record_no_competitions. by rewrite (record_start_date _ dt_str). }
    split; [exact Hr|]. split; [done|].
    assert (Ht := Hgen _ _ IndexError Hr Hin eq_refl).
    split; [exact Ht|]. intros d1 d2 k prodid.
    by apply build_calendar_raise with (e := IndexError).
  - exists (record_empty_competitions dt_str), IndexError.
    assert (Hr : record_start fromisoformat (record_empty_competitions dt_str) = Ok start).
    { unfold record_empty_competitions. by rewrite (record_start_date _ dt_str). }
    split; [exact Hr|]. split; [done|].
    assert (Ht := Hgen _ _ IndexError Hr Hin eq_refl).
    split; [exact Ht|]. intros d1 d2 k prodid.
    by apply build_calendar_raise with (e := IndexError).
  - exists (record_nameless_home dt_str), KeyError, (JObj [("homeAway", JStr "home")]).
    assert (Hr : record_start fromisoformat (record_nameless_home dt_str) = Ok start).
    { unfold record_nameless_home. by rewrite (record_start_date _ dt_str). }
    split; [exact Hr|]. do 3 (split; [done|]).
    assert (Ht := Hgen _ _ KeyError Hr Hin eq_refl).
    split; [exact Ht|]. intros d1 d2 k prodid.
    by apply build_calendar_raise with (e := KeyError).
  - intros ev st e H1 H2 H3. split; [eauto|].
    intros d1 d2 k prodid. apply build_calendar_raise. eauto.
Qed.


(** ** The dedup map *)

Lemma keys_dict_set (k : dict_key) (v : json) (d : pydict) :
  keys (dict_set k v d)
  = if decide (k ∈ keys d) then keys d else keys d ++ [k].
Proof.
  unfold keys. induction d as [|[k' v'] d IH]; cbn [dict_set map fst].
  - by rewrite decide_False by apply not_elem_of_nil.
  - destruct (decide (k = k')) as [->|Hne]; cbn [map fst].
    + by rewrite decide_True by (apply elem_of_cons; auto).
    + rewrite IH.
      destruct (decide (k ∈ map fst d)) as [Hin|Hnin].
      * by rewrite decide_True by (apply elem_of_cons; auto).
      * rewrite decide_False; [done|].
        intros [?|?]%elem_of_cons; done.
Qed.

Lemma dict_set_keys_elem (k k' : dict_key) (v : json) (d : pydict) :
  k' ∈ keys (dict_set k v d) <-> k' = k \/ k' ∈ keys d.
Proof.
  rewrite keys_dict_set. destruct (decide (k ∈ keys d)) as [Hin|Hnin].
  - split; [auto|]. intros [->|?]; done.
  - rewrite elem_of_app, list_elem_of_singleton. tauto.
Qed.

Lemma dict_set_NoDup (k : dict_key) (v : json) (d : pydict) :
  NoDup (keys d) -> NoDup (keys (dict_set k v d)).
Proof.
  intros Hd. rewrite keys_dict_set.
  destruct (decide (k ∈ keys d)) as [Hin|Hnin]; [done|].
  apply NoDup_app. split; [done|]. split; [|apply NoDup_singleton].
  intros x Hx ->%list_elem_of_singleton. done.
Qed.

Lemma dict_set_keyed (k : dict_key) (v : json) (d : pydict) :
  record_key v = Some k -> keyed_by_id d -> keyed_by_id (dict_set k v d).
Proof.
  intros Hv. unfold keyed_by_id.
  induction d as [|[k' v'] d IH]; simpl; intros Hd.
  - by constructor.
  - apply Forall_cons in Hd as [Hk Hd].
    destruct (decide (k = k')) as [->|Hne]; constructor; auto.
Qed.

Lemma collect_events_spec (evs : list json) (d d' : pydict) :
  collect_events evs d = Ok d' ->
  NoDup (keys d) -> keyed_by_id d ->
  NoDup (keys d') /\ keyed_by_id d'
  /\ (forall k, k ∈ keys d -> k ∈ keys d')
  /\ (forall ev k, ev ∈ evs -> record_key ev = Some k -> k ∈ keys d').
Proof.
  revert d. induction evs as [|ev evs IH]; simpl; intros d H Hnd Hkd.
  - injection H as <-. repeat split; auto.
    intros ev k Hin. by apply elem_of_nil in Hin.
  - destruct (py_get ev "id" JNull) as [ev_id|] eqn:Hid; [|discriminate].
    simpl in H. destruct (py_truthy ev_id) eqn:Htruthy; simpl in H.
    + destruct (py_key ev_id) as [k0|] eqn:Hk0; [|discriminate]. simpl in H.
      assert (Hrk : record_key ev = Some k0).
      { unfold record_key. by rewrite Hid, Htruthy, Hk0. }
      destruct (IH _ H) as (Hnd' & Hkd' & Hmono & Hevs);
        [by apply dict_set_NoDup | by apply dict_set_keyed |].
      repeat split; auto.
      * intros k Hk. apply Hmono, dict_set_keys_elem. auto.
      * intros ev' k [->|Hin]%elem_of_cons Hk; [|eauto].
        rewrite Hrk in Hk. injection Hk as <-.
        apply Hmono, dict_set_keys_elem. auto.
    + destruct (IH _ H Hnd Hkd) as (Hnd' & Hkd' & Hmono & Hevs).
      repeat split; auto.
      intros ev' k [->|Hin]%elem_of_cons Hk; [|eauto].
      unfold record_key in Hk. by rewrite Hid, Htruthy in Hk.
Qed.

(** A record without an identifier leaves the dedup map as it would be
    without the record. *)
Lemma collect_events_drop (evs1 evs2 : list json) (fields : list (string * json))
    (d : pydict) :
  py_truthy (default JNull (dict_lookup "id" fields)) = false ->
  collect_events (evs1 ++ JObj fields :: evs2) d = collect_events (evs1 ++ evs2) d.
Proof.
  intros Hid. revert d. induction evs1 as [|ev evs1 IH]; simpl; intros d.
  - by rewrite Hid.
  - destruct (py_get ev "id" JNull) as [ev_id|]; simpl; [|reflexivity].
    destruct (py_truthy ev_id); simpl; [|apply IH].
    destruct (py_key ev_id); simpl; [apply IH | reflexivity].
Qed.

Lemma keys_split (d : pydict) (k : dict_key) :
  NoDup (keys d) -> k ∈ keys d ->
  exists d1 ev d2, d = d1 ++ (k, ev) :: d2 /\ (k ∉ keys d1) /\ (k ∉ keys d2).
Proof.
  unfold keys. intros Hnd Hin.
  apply list_elem_of_fmap in Hin as ([k' ev] & -> & Hin).
  apply list_elem_of_split in Hin as (d1 & d2 & ->).
  exists d1, ev, d2. split; [done|].
  rewrite map_app in Hnd. simpl in Hnd.
  apply NoDup_app in Hnd as (_ & Hdisj & Hnd2).
  apply NoDup_cons in Hnd2 as [Hnot2 _].
  split; [|done]. intros Hin1. apply (Hdisj _ Hin1). by left.
Qed.


(** ** The schedule loop *)

(** One turn of [for t in teams], with the monad unfolded. *)
Lemma fetch_schedules_cons sp lg (t : json) (teams : list json)
    (d : pydict) (w : World) :
  fetch_schedules upstream sp lg (t :: teams) d w
  = match py_get t "team" JNull with
    | Raise e => (Raise e, w)
    | Ok team =>
        let team_info := if py_truthy team then team else JObj [] in
        match py_get team_info "id" JNull with
        | Raise e => (Raise e, w)
        | Ok team_id =>
            if negb (py_truthy team_id)
            then fetch_schedules upstream sp lg teams d w
            else
              let url := schedule_url sp lg team_id in
              match upstream (requests_log w) url with
              | Raise _ => fetch_schedules upstream sp lg teams d (logged w url)
              | Ok s_data =>
                  match py_get s_data "events" (JArr []) with
                  | Raise e => (Raise e, logged w url)
                  | Ok events =>
                      match py_iter events with
                      | Raise e => (Raise e, logged w url)
                      | Ok evs =>
                          match collect_events evs d with
                          | Raise e => (Raise e, logged w url)
                          | Ok d' =>
                              fetch_schedules upstream sp lg teams d' (logged w url)
                          end
                      end
                  end
              end
        end
    end.
Proof.
  cbn [fetch_schedules]. unfold bindM, lift, try_exceptM, http_get_json, ret.
  destruct (py_get t "team" JNull) as [team|]; [|reflexivity].
  cbv zeta.
  destruct (py_get (if py_truthy team then team else JObj []) "id" JNull)
    as [team_id|] eqn:Hid; [|reflexivity].
  destruct (negb (py_truthy team_id)); [reflexivity|].
  assert (Hdn : exists x, py_get (if py_truthy team then team else JObj [])
                            "displayName" JNull = Ok x).
  { destruct (if py_truthy team then team else JObj []); try discriminate.
    simpl. eauto. }
  destruct Hdn as [x ->].
  destruct (upstream _ _) as [s_data|]; [|reflexivity].
  destruct (py_get s_data "events" (JArr [])) as [events|]; [|reflexivity].
  destruct (py_iter events) as [evs|]; [|reflexivity].
  by destruct (collect_events evs d).
Qed.


(** Whatever the loop does, it only appends to the request log. *)
Lemma fetch_schedules_frame sp lg (teams : list json) (d : pydict)
    (w w' : World) (r : result pydict) :
  fetch_schedules upstream sp lg teams d w = (r, w') ->
  CACHE w' = CACHE w
  /\ exists urls, requests_log w' = requests_log w ++ urls.
Proof.
  revert d w. induction teams as [|t teams IH]; intros d w H.
  - injection H as <- <-. split; [done|]. exists []. by rewrite app_nil_r.
  - rewrite fetch_schedules_cons in H. cbv zeta in H.
    assert (Hhere : forall (x : result pydict), (x, w) = (r, w') ->
              CACHE w' = CACHE w /\ exists urls, requests_log w' = requests_log w ++ urls).
    { intros x [= _ <-]. split; [done|]. exists []. by rewrite app_nil_r. }
    assert (Hnext : forall url (x : result pydict), (x, logged w url) = (r, w') ->
              CACHE w' = CACHE w /\ exists urls, requests_log w' = requests_log w ++ urls).
    { intros url x [= _ <-]. split; [done|]. by exists [url]. }
    assert (Hrec : forall url d1,
              fetch_schedules upstream sp lg teams d1 (logged w url) = (r, w') ->
              CACHE w' = CACHE w /\ exists urls, requests_log w' = requests_log w ++ urls).
    { intros url d1 H1. apply IH in H1 as (Hc & urls & Hl). split; [done|].
      exists (url :: urls). rewrite Hl. simpl. by rewrite <- app_assoc. }
    repeat (match type of H with
            | match ?x with _ => _ end = _ => destruct x
            | (if ?b then _ else _) = _ => destruct b
            end; eauto).
Qed.

Lemma fetch_schedules_spec sp lg (teams : list json) (d0 d : pydict) (w w' : World) :
  fetch_schedules upstream sp lg teams d0 w = (Ok d, w') ->
  NoDup (keys d0) -> keyed_by_id d0 ->
  NoDup (keys d) /\ keyed_by_id d
  /\ (forall k, k ∈ keys d0 -> k ∈ keys d)
  /\ exists urls,
       requests_log w' = requests_log w ++ urls
       /\ forall pre url post s_data ev k,
            urls = pre ++ url :: post ->
            upstream (requests_log w ++ pre) url = Ok s_data ->
            ev ∈ schedule_events s_data -> record_key ev = Some k ->
            k ∈ keys d.
Proof.
  revert d0 w. induction teams as [|t teams IH]; intros d0 w H Hnd Hkd.
  - injection H as <- <-. repeat split; auto.
    exists []. split; [by rewrite app_nil_r|].
    intros pre url post s_data ev k Hsplit. by destruct pre.
  - rewrite fetch_schedules_cons in H. cbv zeta in H.
    destruct (py_get t "team" JNull) as [team|]; [|discriminate].
    destruct (py_get _ "id" JNull) as [team_id|]; [|discriminate].
    destruct (negb (py_truthy team_id)); [by apply IH in H|].
    set (url0 := schedule_url sp lg team_id) in *.
    destruct (upstream (requests_log w) url0) as [s_data0|e0] eqn:Hup.
    + destruct (py_get s_data0 "events" (JArr [])) as [events|] eqn:Hev;
        [|discriminate].
      destruct (py_iter events) as [evs|] eqn:Hit; [|discriminate].
      destruct (collect_events evs d0) as [d1|] eqn:Hcol; [|discriminate].
      destruct (collect_events_spec _ _ _ Hcol Hnd Hkd)
        as (Hnd1 & Hkd1 & Hmono1 & Hevs1).
      destruct (IH _ _ H Hnd1 Hkd1) as (Hnd' & Hkd' & Hmono & urls & Hlog & Hurls).
      repeat split; auto.
      exists (url0 :: urls). split.
      { rewrite Hlog. simpl. by rewrite <- app_assoc. }
      intros pre url post s_data ev k Hsplit Hu Hin Hk.
      destruct pre as [|u pre]; simpl in Hsplit; injection Hsplit as -> ->.
      * rewrite app_nil_r, Hup in Hu. injection Hu as <-.
        apply Hmono, (Hevs1 ev); [|done].
        unfold schedule_events in Hin. by rewrite Hev, Hit in Hin.
      * apply (Hurls pre url post s_data ev); auto.
        simpl. by rewrite <- app_assoc.
    + destruct (IH _ _ H Hnd Hkd) as (Hnd' & Hkd' & Hmono & urls & Hlog & Hurls).
      repeat split; auto.
      exists (url0 :: urls). split.
      { rewrite Hlog. simpl. by rewrite <- app_assoc. }
      intros pre url post s_data ev k Hsplit Hu Hin Hk.
      destruct pre as [|u pre]; simpl in Hsplit; injection Hsplit as -> ->.
      * rewrite app_nil_r, Hup in Hu. discriminate.
      * apply (Hurls pre url post s_data ev); auto.
        simpl. by rewrite <- app_assoc.
Qed.


Lemma translate_all_insert_inv sw ew prefix hours (l1 l2 : list json)
    (ev : json) (comps : list Event) :
  translate_all fromisoformat sw ew prefix hours (l1 ++ ev :: l2) = Ok comps ->
  exists c1 oe c2,
    translate_all fromisoformat sw ew prefix hours l1 = Ok c1
    /\ translate_record fromisoformat sw ew prefix hours ev = Ok oe
    /\ translate_all fromisoformat sw ew prefix hours l2 = Ok c2
    /\ comps = c1 ++ option_list oe ++ c2.
Proof.
  rewrite translate_all_app. simpl. intros H.
  destruct (translate_all _ _ _ _ _ l1) as [c1|]; [|discriminate].
  destruct (translate_record _ _ _ _ _ ev) as [oe|]; [|discriminate].
  destruct (translate_all _ _ _ _ _ l2) as [c2|]; [|discriminate].
  simpl in H. injection H as <-. exists c1, oe, c2.
  by destruct oe.
Qed.

(** ** [fetch_league_events] *)

Lemma fetch_events_by_id_frame sp lg (w w' : World) (r : result pydict) :
  fetch_events_by_id upstream sp lg w = (r, w') ->
  CACHE w' = CACHE w
  /\ exists urls, requests_log w' = requests_log w ++ base_team_url sp lg :: urls.
Proof.
  unfold fetch_events_by_id, bindM, lift, http_get_json.
  assert (Hstop : forall (x : result pydict),
            (x, logged w (base_team_url sp lg)) = (r, w') ->
            CACHE w' = CACHE w
            /\ exists urls, requests_log w' = requests_log w ++ base_team_url sp lg :: urls).
  { intros x [= _ <-]. split; [done|]. by exists []. }
  destruct (upstream _ _) as [data|]; [|by apply Hstop].
  destruct (bind (py_getitem data "sports") _) as [teams|]; [|by apply Hstop].
  destruct (py_len teams); [|by apply Hstop].
  destruct (py_iter teams) as [ts|]; [|by apply Hstop].
  intros H. apply fetch_schedules_frame in H as (Hc & urls & Hl).
  split; [done|]. exists urls. rewrite Hl. simpl. by rewrite <- app_assoc.
Qed.

Lemma fetch_events_by_id_spec sp lg (w w' : World) (d : pydict) :
  fetch_events_by_id upstream sp lg w = (Ok d, w') ->
  NoDup (keys d) /\ keyed_by_id d
  /\ exists urls,
       requests_log w' = requests_log w ++ base_team_url sp lg :: urls
       /\ forall pre url post s_data ev k,
            urls = pre ++ url :: post ->
            upstream (requests_log w ++ base_team_url sp lg :: pre) url = Ok s_data ->
            ev ∈ schedule_events s_data -> record_key ev = Some k ->
            k ∈ keys d.
Proof.
  unfold fetch_events_by_id, bindM, lift, http_get_json.
  destruct (upstream _ _) as [data|]; [|discriminate].
  destruct (bind (py_getitem data "sports") _) as [teams|]; [|discriminate].
  destruct (py_len teams); [|discriminate].
  destruct (py_iter teams) as [ts|]; [|discriminate].
  intros H. apply fetch_schedules_spec in H as (Hnd & Hkd & _ & urls & Hl & Hurls);
    [|apply NoDup_nil_2 | constructor].
  repeat split; auto. exists urls. split.
  { rewrite Hl. simpl. by rewrite <- app_assoc. }
  intros pre url post s_data ev k Hsplit Hu. apply (Hurls pre url post); auto.
  simpl. by rewrite <- app_assoc.
Qed.

Lemma fetch_league_events_ok today league (w w' : World) (b : bytes) :
  fetch_league_events fromisoformat to_ical upstream today league w = (Ok b, w') ->
  exists sp hours prodid prefix d cal,
    league_config league = Ok (sp, hours, prodid, prefix)
    /\ fetch_events_by_id upstream sp league w = (Ok d, w')
    /\ build_calendar_cal fromisoformat today d prodid prefix hours = Ok cal
    /\ b = to_ical cal.
Proof.
  unfold fetch_league_events, bindM, lift.
  destruct (league_config league) as [[[[sp hours] prodid] prefix]|]; [|discriminate].
  destruct (fetch_events_by_id upstream sp league w) as [[d|] w1] eqn:Hf;
    [|discriminate].
  unfold build_calendar.
  destruct (build_calendar_cal _ _ _ _ _ _) as [cal|] eqn:Hcal; [|discriminate].
  simpl. intros [= <- <-]. by exists sp, hours, prodid, prefix, d, cal.
Qed.

Lemma fetch_league_events_frame today league (w w' : World) (r : result bytes) :
  fetch_league_events fromisoformat to_ical upstream today league w = (r, w') ->
  CACHE w' = CACHE w
  /\ (forall sp hours prodid prefix,
        league_config league = Ok (sp, hours, prodid, prefix) ->
        exists urls,
          requests_log w' = requests_log w ++ base_team_url sp league :: urls).
Proof.
  unfold fetch_league_events, bindM, lift.
  destruct (league_config league) as [[[[sp hours] prodid] prefix]|].
  - destruct (fetch_events_by_id upstream sp league w) as [[d|] w1] eqn:Hf;
      intros [= _ <-]; apply fetch_events_by_id_frame in Hf as [Hc Hl];
      (split; [done|]); by intros ? ? ? ? [= <- _ _ _].
  - intros [= _ <-]. split; [done|]. discriminate.
Qed.


(** C1, amended: when [fetch_league_events] returns, the map it built
    holds each identifier once, every entry under the identifier of its
    own record.  An identifier listed in any schedule that was fetched, in
    one team's or in several, has exactly one entry, and the calendar's
    events are those of the entries before it, then the event of that
    entry if the loop body gives it one (none if it is skipped), then
    those of the entries after it.  A record whose identifier is missing
    or falsy leaves the map as it would be without the record. *)
Theorem dedup_one_entry_per_identifier
    (today : Z) (league : string) (w w' : World) (b : bytes) :
  fetch_league_events fromisoformat to_ical upstream today league w = (Ok b, w') ->
  exists sp hours prodid prefix d cal urls,
    league_config league = Ok (sp, hours, prodid, prefix)
    /\ fetch_events_by_id upstream sp league w = (Ok d, w')
    /\ build_calendar_cal fromisoformat today d prodid prefix hours = Ok cal
    /\ b = to_ical cal
    /\ NoDup (keys d) /\ keyed_by_id d
    /\ requests_log w' = requests_log w ++ base_team_url sp league :: urls
    /\ (forall pre url post s_data ev k,
          urls = pre ++ url :: post ->
          upstream (requests_log w ++ base_team_url sp league :: pre) url = Ok s_data ->
          ev ∈ schedule_events s_data -> record_key ev = Some k ->
          exists d1 ev' d2 c1 oe c2,
            d = d1 ++ (k, ev') :: d2
            /\ (k ∉ keys d1) /\ (k ∉ keys d2)
            /\ record_key ev' = Some k
            /\ translate_all fromisoformat (today - 30) (today + 365) prefix hours
                 (dict_values d1) = Ok c1
            /\ translate_record fromisoformat (today - 30) (today + 365) prefix hours
                 ev' = Ok oe
            /\ translate_all fromisoformat (today - 30) (today + 365) prefix hours
                 (dict_values d2) = Ok c2
            /\ components cal = c1 ++ option_list oe ++ c2)
    /\ (forall evs1 evs2 fields d0,
          py_truthy (default JNull (dict_lookup "id" fields)) = false ->
          collect_events (evs1 ++ JObj fields :: evs2) d0
          = collect_events (evs1 ++ evs2) d0).
Proof.
  intros H.
  apply fetch_league_events_ok in H
    as (sp & hours & prodid & prefix & d & cal & Hcfg & Hf & Hcal & ->).
  destruct (fetch_events_by_id_spec _ _ _ _ _ Hf) as (Hnd & Hkd & urls & Hlog & Hurls).
  exists sp, hours, prodid, prefix, d, cal, urls.
  do 7 (split; [done|]). split; [|apply collect_events_drop].
  intros pre url post s_data ev k Hsplit Hu Hin Hk.
  specialize (Hurls pre url post s_data ev k Hsplit Hu Hin Hk).
  destruct (keys_split d k Hnd Hurls) as (d1 & ev' & d2 & -> & Hk1 & Hk2).
  assert (Hev' : record_key ev' = Some k).
  { unfold keyed_by_id in Hkd. apply Forall_app in Hkd as [_ Hkd].
    by apply Forall_cons in Hkd as [? _]. }
  unfold build_calendar_cal in Hcal.
  destruct (date_add_days today (-30)) as [sw|] eqn:Hsw; [|discriminate].
  destruct (date_add_days today 365) as [ew|] eqn:Hew; [|discriminate].
  apply date_add_days_ok in Hsw as ->. apply date_add_days_ok in Hew as ->.
  replace (today + -30) with (today - 30) in Hcal by lia.
  simpl in Hcal. rewrite dict_values_insert in Hcal.
  destruct (translate_all _ _ _ _ _ _) as [comps|] eqn:Hall; [|discriminate].
  simpl in Hcal. injection Hcal as <-.
  apply translate_all_insert_inv in Hall as (c1 & oe & c2 & H1 & H2 & H3 & ->).
  by exists d1, ev', d2, c1, oe, c2.
Qed.


(** ** [get_cached_calendar] *)

Lemma refresh_ok now today league (w w1 : World) (b : bytes) :
  fetch_league_events fromisoformat to_ical upstream today league w = (Ok b, w1) ->
  refresh fromisoformat to_ical upstream now today league w
  = (Ok b,
     {| CACHE := <[league := {| last_fetch := Some now; ical_bytes := Some b |}]>
                   (CACHE w1);
        requests_log := requests_log w1 |}).
Proof.
  intros H. unfold refresh, try_exceptM, bindM, cache_store, ret. by rewrite H.
Qed.

Lemma refresh_failed now today league (w w1 : World) (e : exn) :
  fetch_league_events fromisoformat to_ical upstream today league w = (Raise e, w1) ->
  refresh fromisoformat to_ical upstream now today league w
  = match CACHE w1 !! league with
    | Some entry =>
        match ical_bytes entry with
        | Some b => (Ok b, w1)
        | None => (Raise e, w1)
        end
    | None => (Raise KeyError, w1)
    end.
Proof.
  intros H. unfold refresh, try_exceptM, bindM, cache_lookup, ret, lift.
  rewrite H. destruct (CACHE w1 !! league) as [entry|]; [|reflexivity].
  by destruct (ical_bytes entry).
Qed.

Lemma get_cached_calendar_unfold clock today league (w : World) (entry : cache_entry) :
  CACHE w !! league = Some entry ->
  get_cached_calendar fromisoformat to_ical upstream clock today league w
  = match last_fetch entry, ical_bytes entry with
    | Some lf, Some b =>
        match datetime_sub (now_utc clock) lf with
        | Ok age =>
            if REFRESH_INTERVAL <? age
            then refresh fromisoformat to_ical upstream (now_utc clock) today league w
            else (Ok b, w)
        | Raise e => (Raise e, w)
        end
    | _, _ => refresh fromisoformat to_ical upstream (now_utc clock) today league w
    end.
Proof.
  intros H. unfold get_cached_calendar, bindM, cache_lookup, lift, ret.
  rewrite H. destruct (last_fetch entry) as [lf|]; [|reflexivity].
  destruct (ical_bytes entry) as [b|]; [|reflexivity].
  destruct (datetime_sub (now_utc clock) lf) as [age|]; [|reflexivity].
  by destruct (REFRESH_INTERVAL <? age).
Qed.

Lemma datetime_sub_utc (t1 t0 : Z) :
  datetime_sub (now_utc t1) (now_utc t0) = Ok (t1 - t0).
Proof. unfold datetime_sub. simpl. f_equal. lia. Qed.

Lemma refresh_frame now today league (w w' : World) (r : result bytes) :
  refresh fromisoformat to_ical upstream now today league w = (r, w') ->
  forall sp hours prodid prefix,
    league_config league = Ok (sp, hours, prodid, prefix) ->
    exists urls, requests_log w' = requests_log w ++ base_team_url sp league :: urls.
Proof.
  intros H sp hours prodid prefix Hcfg.
  destruct (fetch_league_events fromisoformat to_ical upstream today league w)
    as [[b|e] w1] eqn:Hf.
  - rewrite (refresh_ok _ _ _ _ _ _ Hf) in H. injection H as _ <-. simpl.
    apply fetch_league_events_frame in Hf as [_ Hl]. eauto.
  - rewrite (refresh_failed _ _ _ _ _ _ Hf) in H.
    apply fetch_league_events_frame in Hf as [_ Hl].
    destruct (CACHE w1 !! league) as [entry|]; [destruct (ical_bytes entry)|];
      injection H as _ <-; eauto.
Qed.

(** C3: with a fetch in the cache, two calls made within 24 hours of it
    both return the cached bytes and leave the world as it was: no
    request goes upstream and the cache keeps its entry. *)
Theorem fresh_cache_served
    (league : string) (w : World) (t0 : Z) (b : bytes)
    (clock1 today1 clock2 today2 : Z) :
  CACHE w !! league
  = Some {| last_fetch := Some (now_utc t0); ical_bytes := Some b |} ->
  clock1 - t0 <= REFRESH_INTERVAL ->
  clock2 - t0 <= REFRESH_INTERVAL ->
  (do* first := get_cached_calendar fromisoformat to_ical upstream
                  clock1 today1 league in
   do* second := get_cached_calendar fromisoformat to_ical upstream
                   clock2 today2 league in
   ret (first, second)) w
  = (Ok (b, b), w).
Proof.
  intros Hc H1 H2.
  assert (Hget : forall clock today, clock - t0 <= REFRESH_INTERVAL ->
    get_cached_calendar fromisoformat to_ical upstream clock today league w
    = (Ok b, w)).
  { intros clock today Hle.
    rewrite (get_cached_calendar_unfold _ _ _ _ _ Hc). cbn [last_fetch ical_bytes].
    rewrite datetime_sub_utc.
    by replace (REFRESH_INTERVAL <? clock - t0) with false by lia. }
  unfold bindM, ret. by rewrite !Hget.
Qed.

(** C4: with a fetch in the cache that is more than 24 hours old, a
    refresh that fails makes the call return the cached bytes; the cache
    is left as it was, bytes and timestamp, and a later call finds the
    entry stale again and retries the refresh, asking upstream for the
    team list once more. *)
Theorem stale_cache_fallback
    (league : string) (w w1 : World) (t0 : Z) (b : bytes)
    (clock today : Z) (e : exn) :
  CACHE w !! league
  = Some {| last_fetch := Some (now_utc t0); ical_bytes := Some b |} ->
  REFRESH_INTERVAL < clock - t0 ->
  fetch_league_events fromisoformat to_ical upstream today league w = (Raise e, w1) ->
  get_cached_calendar fromisoformat to_ical upstream clock today league w = (Ok b, w1)
  /\ CACHE w1 = CACHE w
  /\ CACHE w1 !! league
     = Some {| last_fetch := Some (now_utc t0); ical_bytes := Some b |}
  /\ forall clock' today',
       clock <= clock' ->
       get_cached_calendar fromisoformat to_ical upstream clock' today' league w1
       = refresh fromisoformat to_ical upstream (now_utc clock') today' league w1
       /\ forall sp hours prodid prefix,
            league_config league = Ok (sp, hours, prodid, prefix) ->
            exists urls,
              requests_log
                (snd (get_cached_calendar fromisoformat to_ical upstream
                        clock' today' league w1))
              = requests_log w1 ++ base_team_url sp league :: urls.
Proof.
  intros Hc Hstale Hf.
  destruct (fetch_league_events_frame _ _ _ _ _ Hf) as [Hcache _].
  assert (Hc1 : CACHE w1 !! league
                = Some {| last_fetch := Some (now_utc t0); ical_bytes := Some b |})
    by (by rewrite Hcache).
  split; [|split; [done|split; [done|]]].
  - rewrite (get_cached_calendar_unfold _ _ _ _ _ Hc). cbn [last_fetch ical_bytes].
    rewrite datetime_sub_utc.
    replace (REFRESH_INTERVAL <? clock - t0) with true by lia.
    by rewrite (refresh_failed _ _ _ _ _ _ Hf), Hc1.
  - intros clock' today' Hlater.
    assert (Hget : get_cached_calendar fromisoformat to_ical upstream
                     clock' today' league w1
                   = refresh fromisoformat to_ical upstream
                       (now_utc clock') today' league w1).
    { rewrite (get_cached_calendar_unfold _ _ _ _ _ Hc1). cbn [last_fetch ical_bytes].
      rewrite datetime_sub_utc.
      by replace (REFRESH_INTERVAL <? clock' - t0) with true by lia. }
    split; [exact Hget|]. rewrite Hget.
    intros sp hours prodid prefix Hcfg.
    destruct (refresh _ _ _ _ _ _ w1) as [r w2] eqn:Hr.
    eapply refresh_frame; eauto.
Qed.

(** C5: for a league with a well-formed cache entry, the call raises
    exactly when the entry is empty and the refresh it triggers fails,
    and then it raises the refresh's error: with an empty entry a failed
    refresh is passed on to the caller, and no other state makes the call
    raise. *)
Theorem empty_cache_failure
    (league : string) (w : World) (entry : cache_entry) (clock today : Z) :
  CACHE w !! league = Some entry ->
  entry_wf entry ->
  (forall e w1,
      last_fetch entry = None -> ical_bytes entry = None ->
      fetch_league_events fromisoformat to_ical upstream today league w
      = (Raise e, w1) ->
      get_cached_calendar fromisoformat to_ical upstream clock today league w
      = (Raise e, w1))
  /\ (forall e w1,
        get_cached_calendar fromisoformat to_ical upstream clock today league w
        = (Raise e, w1) ->
        last_fetch entry = None /\ ical_bytes entry = None
        /\ fetch_league_events fromisoformat to_ical upstream today league w
           = (Raise e, w1)).
Proof.
  intros Hc Hwf. split.
  - intros e w1 Hlf Hb Hf.
    rewrite (get_cached_calendar_unfold _ _ _ _ _ Hc), Hlf.
    rewrite (refresh_failed _ _ _ _ _ _ Hf).
    destruct (fetch_league_events_frame _ _ _ _ _ Hf) as [-> _].
    by rewrite Hc, Hb.
  - intros e w1 H.
    rewrite (get_cached_calendar_unfold _ _ _ _ _ Hc) in H.
    assert (Hrefresh : forall now,
      refresh fromisoformat to_ical upstream now today league w = (Raise e, w1) ->
      ical_bytes entry = None
      /\ fetch_league_events fromisoformat to_ical upstream today league w
         = (Raise e, w1)).
    { intros now Hr.
      destruct (fetch_league_events fromisoformat to_ical upstream today league w)
        as [[b'|e'] w2] eqn:Hf.
      - rewrite (refresh_ok _ _ _ _ _ _ Hf) in Hr. discriminate.
      - rewrite (refresh_failed _ _ _ _ _ _ Hf) in Hr.
        destruct (fetch_league_events_frame _ _ _ _ _ Hf) as [Hcache _].
        rewrite Hcache, Hc in Hr.
        destruct (ical_bytes entry); [discriminate|]. by injection Hr as -> ->. }
    destruct Hwf as [[Hlf Hb]|(t & b & Hlf & Hb)]; rewrite Hlf in H.
    + apply Hrefresh in H as [_ Hf]. done.
    + rewrite Hb in H. rewrite datetime_sub_utc in H.
      destruct (REFRESH_INTERVAL <? clock - t); [|discriminate].
      apply Hrefresh in H as [Hnone _]. congruence.
Qed.

(** Every entry of [CACHE] stays well formed across calls. *)
Lemma get_cached_calendar_wf clock today league (w w' : World) (r : result bytes) :
  (forall l entry, CACHE w !! l = Some entry -> entry_wf entry) ->
  get_cached_calendar fromisoformat to_ical upstream clock today league w = (r, w') ->
  forall l entry, CACHE w' !! l = Some entry -> entry_wf entry.
Proof.
  intros Hwf H.
  assert (Hrefresh : forall now,
    refresh fromisoformat to_ical upstream now today league w = (r, w') ->
    (exists t, now = now_utc t) ->
    forall l entry, CACHE w' !! l = Some entry -> entry_wf entry).
  { intros now Hr [t ->] l entry.
    destruct (fetch_league_events fromisoformat to_ical upstream today league w)
      as [[b|e] w1] eqn:Hf;
      destruct (fetch_league_events_frame _ _ _ _ _ Hf) as [Hcache _].
    - rewrite (refresh_ok _ _ _ _ _ _ Hf) in Hr. injection Hr as _ <-. simpl.
      rewrite Hcache. destruct (decide (league = l)) as [->|Hne].
      + rewrite lookup_insert_eq. intros [= <-]. right. by exists t, b.
      + rewrite lookup_insert_ne by done. apply Hwf.
    - rewrite (refresh_failed _ _ _ _ _ _ Hf) in Hr.
      assert (w' = w1) as ->.
      { destruct (CACHE w1 !! league) as [en|]; [destruct (ical_bytes en)|];
          by injection Hr as _ <-. }
      rewrite Hcache. apply Hwf. }
  unfold get_cached_calendar, bindM, cache_lookup, lift, ret in H.
  destruct (CACHE w !! league) as [en|] eqn:Hc.
  - destruct (last_fetch en) as [lf|]; [destruct (ical_bytes en) as [b|]|].
    + destruct (datetime_sub (now_utc clock) lf) as [age|].
      * destruct (REFRESH_INTERVAL <? age); [eauto|].
        injection H as _ <-. exact Hwf.
      * injection H as _ <-. exact Hwf.
    + eauto.
    + eauto.
  - injection H as _ <-. exact Hwf.
Qed.

Lemma CACHE_init_wf l entry : CACHE_init !! l = Some entry -> entry_wf entry.
Proof.
  unfold CACHE_init. intros H.
  destruct (decide ("nfl" = l)) as [<-|Hnfl].
  - rewrite lookup_insert_eq in H. injection H as <-. by left.
  - rewrite lookup_insert_ne in H by done.
    destruct (decide ("nba" = l)) as [<-|Hnba].
    + rewrite lookup_insert_eq in H. injection H as <-. by left.
    + rewrite lookup_insert_ne in H by done. by rewrite lookup_empty in H.
Qed.

End Facts.

(** ** The two-team example *)

Lemma chiefs_bills_events_by_id (w : World) :
  fetch_events_by_id (two_team_upstream chiefs_bills) "football" "nfl" w
  = (Ok [(KStr "401547439", chiefs_bills)],
     logged (logged (logged w (base_team_url "football" "nfl"))
               (schedule_url "football" "nfl" (JStr "12")))
       (schedule_url "football" "nfl" (JStr "2"))).
Proof. reflexivity. Qed.

Lemma chiefs_bills_start (fromisoformat : string -> result datetime) :
  fromisoformat "2025-11-12T18:20+00:00"
  = Ok (mk_datetime 2025 11 12 18 20 0 0 (Some 0)) ->
  record_start fromisoformat chiefs_bills
  = Ok (mk_datetime 2025 11 12 18 20 0 0 (Some 0)).
Proof.
  intros Hparse. unfold chiefs_bills, game.
  rewrite (record_start_date _ _ "2025-11-12T18:20Z") by reflexivity.
  unfold iso_to_utc.
  change (endswith "2025-11-12T18:20Z" "Z") with true. cbv iota.
  change (replace "2025-11-12T18:20Z" "Z" "+00:00") with "2025-11-12T18:20+00:00".
  rewrite Hparse. reflexivity.
Qed.

(** C9: two teams whose schedules both list game "401547439" on
    "2025-11-12T18:20Z", Kansas City Chiefs at home to Buffalo Bills, the
    NFL's three hours, and a [today] that has 2025-11-12 in its window: the
    calendar that comes out holds exactly one event, with summary
    "Buffalo Bills @ Kansas City Chiefs", UID "nfl-401547439@sports",
    DTSTART 20251112T182000Z and DTEND 20251112T212000Z. *)
Theorem chiefs_bills_end_to_end
    (fromisoformat : string -> result datetime) (to_ical : Calendar -> bytes)
    (today : Z) (w : World) :
  fromisoformat "2025-11-12T18:20+00:00"
  = Ok (mk_datetime 2025 11 12 18 20 0 0 (Some 0)) ->
  today - 30 <= ymd2ord 2025 11 12 <= today + 365 ->
  exists e w',
    fetch_league_events fromisoformat to_ical (two_team_upstream chiefs_bills)
      today "nfl" w
    = (Ok (to_ical {| prodid := "-//Homepage Sports Calendar//NFL//EN";
                      version := "2.0";
                      components := [e] |}),
       w')
    /\ requests_log w'
       = requests_log w
         ++ [base_team_url "football" "nfl";
             schedule_url "football" "nfl" (JStr "12");
             schedule_url "football" "nfl" (JStr "2")]
    /\ (forall log team_id,
          team_id = "12" \/ team_id = "2" ->
          option_map schedule_events
            (match two_team_upstream chiefs_bills log
                     (schedule_url "football" "nfl" (JStr team_id)) with
             | Ok s_data => Some s_data
             | Raise _ => None
             end)
          = Some [chiefs_bills])
    /\ summary e = "Buffalo Bills @ Kansas City Chiefs"
    /\ uid e = "nfl-401547439@sports"
    /\ vDatetime_to_ical (dtstart e) = "20251112T182000Z"
    /\ vDatetime_to_ical (dtend e) = "20251112T212000Z".
Proof.
  intros Hparse Hwin.
  change (ymd2ord 2025 11 12) with 739567 in Hwin.
  set (start := mk_datetime 2025 11 12 18 20 0 0 (Some 0)).
  set (e := {| summary := "Buffalo Bills @ Kansas City Chiefs";
               dtstart := start;
               dtend := mk_datetime 2025 11 12 21 20 0 0 (Some 0);
               uid := "nfl-401547439@sports";
               location := None;
               description := None |}).
  assert (Hrec : translate_record fromisoformat (today - 30) (today + 365)
                   "nfl" 3%Q chiefs_bills = Ok (Some e)).
  { rewrite (translate_record_inside _ _ _ _ _ _ start
               (chiefs_bills_start _ Hparse)).
    - reflexivity.
    - change (date_of start) with 739567. exact Hwin. }
  assert (Hcal : build_calendar_cal fromisoformat today
                   [(KStr "401547439", chiefs_bills)]
                   "-//Homepage Sports Calendar//NFL//EN" "nfl" 3%Q
                 = Ok {| prodid := "-//Homepage Sports Calendar//NFL//EN";
                         version := "2.0";
                         components := [e] |}).
  { unfold build_calendar_cal, date_add_days, MAXORDINAL.
    replace ((0 <? today + -30) && (today + -30 <=? 3652059)) with true by lia.
    replace ((0 <? today + 365) && (today + 365 <=? 3652059)) with true by lia.
    cbn [bind dict_values map snd translate_all].
    replace (today + -30) with (today - 30) by lia.
    rewrite Hrec. reflexivity. }
  exists e. eexists. split; [|split; [|split]].
  - unfold fetch_league_events, bindM, lift.
    change (league_config "nfl")
      with (Ok ("football", 3%Q, "-//Homepage Sports Calendar//NFL//EN", "nfl")
            : result (string * Q * string * string)).
    cbv beta iota. rewrite chiefs_bills_events_by_id.
    unfold build_calendar. rewrite Hcal. reflexivity.
  - unfold logged. cbn [requests_log]. by rewrite <- !app_assoc.
  - intros log team_id [-> | ->]; reflexivity.
  - repeat split; reflexivity.
Qed.

(** ** The statements at concrete inputs *)



Lemma missing_competitor_skipped_witness :
  (forall sw ew,
      translate_record IsoFormat.fromisoformat sw ew "nfl" 3%Q record_home_only
      = Ok None)
  /\ build_calendar IsoFormat.fromisoformat calendar_lines a_today
       ([] ++ (KStr "7", record_home_only) :: [(KStr "401547439", chiefs_bills)])
       "P" "nfl" 3%Q
     = build_calendar IsoFormat.fromisoformat calendar_lines a_today
         ([] ++ [(KStr "401547439", chiefs_bills)]) "P" "nfl" 3%Q.
Proof.
  exact (missing_competitor_skipped IsoFormat.fromisoformat calendar_lines
           [("id", JStr "7");
            ("date", JStr "2025-11-12T18:20Z");
            ("competitions",
             JArr [JObj [("competitors",
                          JArr [competitor "home" "Kansas City Chiefs"])]])]
           [("competitors", JArr [competitor "home" "Kansas City Chiefs"])]
           [] [competitor "home" "Kansas City Chiefs"]
           a_today [] [(KStr "401547439", chiefs_bills)] (KStr "7") "P" "nfl" 3%Q
           eq_refl eq_refl eq_refl eq_refl).
Defined.

Lemma unparseable_date_skipped_witness :
  (forall sw ew,
      translate_record IsoFormat.fromisoformat sw ew "nfl" 3%Q record_tbd = Ok None)
  /\ build_calendar IsoFormat.fromisoformat calendar_lines a_today
       ([] ++ (KStr "8", record_tbd) :: [(KStr "401547439", chiefs_bills)])
       "P" "nfl" 3%Q
     = build_calendar IsoFormat.fromisoformat calendar_lines a_today
         ([] ++ [(KStr "401547439", chiefs_bills)]) "P" "nfl" 3%Q.
Proof.
  exact (unparseable_date_skipped IsoFormat.fromisoformat calendar_lines
           [("id", JStr "8");
            ("date", JStr "TBD");
            ("competitions",
             JArr [JObj [("competitors",
                          JArr [competitor "home" "Kansas City Chiefs";
                                competitor "away" "Buffalo Bills"])]])]
           "TBD" ValueError
           a_today [] [(KStr "401547439", chiefs_bills)] (KStr "8") "P" "nfl" 3%Q
           eq_refl eq_refl).
Defined.

Lemma later_failures_abort_batch_witness :
  translate_record IsoFormat.fromisoformat (a_today - 30) (a_today + 365) "nfl" 3%Q
    (record_no_competitions "2025-11-12T18:20Z") = Raise IndexError
  /\ is_ok (build_calendar IsoFormat.fromisoformat calendar_lines a_today
              ([(KStr "401547439", chiefs_bills)]
               ++ (KStr "1", record_no_competitions "2025-11-12T18:20Z") :: [])
              "P" "nfl" 3%Q) = false.
Proof.
  assert (Hwin : a_today - 30
                 <= date_of (mk_datetime 2025 11 12 18 20 0 0 (Some 0))
                 <= a_today + 365) by (vm_compute; split; discriminate).
  destruct (later_failures_abort_batch IsoFormat.fromisoformat calendar_lines
              "2025-11-12T18:20Z" (mk_datetime 2025 11 12 18 20 0 0 (Some 0))
              a_today "nfl" 3%Q eq_refl Hwin) as (_ & _ & _ & Hgen).
  destruct (Hgen (record_no_competitions "2025-11-12T18:20Z")
              (mk_datetime 2025 11 12 18 20 0 0 (Some 0)) IndexError
              eq_refl Hwin eq_refl) as [Hrec Hbatch].
  split; [exact Hrec|].
  apply (Hbatch [(KStr "401547439", chiefs_bills)] [] (KStr "1") "P").
Defined.

Lemma fresh_cache_served_witness :
  (do* first := get_cached_calendar IsoFormat.fromisoformat calendar_lines
                  failing_upstream US_PER_HOUR a_today "nfl" in
   do* second := get_cached_calendar IsoFormat.fromisoformat calendar_lines
                   failing_upstream REFRESH_INTERVAL a_today "nfl" in
   ret (first, second)) (cached_world 0 [])
  = (Ok ([], []), cached_world 0 []).
Proof.
  apply (fresh_cache_served IsoFormat.fromisoformat calendar_lines failing_upstream
           "nfl" (cached_world 0 []) 0 [] US_PER_HOUR a_today REFRESH_INTERVAL a_today).
  - reflexivity.
  - vm_compute. discriminate.
  - vm_compute. discriminate.
Defined.

Lemma stale_cache_fallback_witness :
  get_cached_calendar IsoFormat.fromisoformat calendar_lines failing_upstream
    (REFRESH_INTERVAL + 1) a_today "nfl" (cached_world 0 [])
  = (Ok [], logged (cached_world 0 []) (base_team_url "football" "nfl"))
  /\ CACHE (logged (cached_world 0 []) (base_team_url "football" "nfl")) !! "nfl"
     = Some {| last_fetch := Some (now_utc 0); ical_bytes := Some [] |}.
Proof.
  destruct (stale_cache_fallback IsoFormat.fromisoformat calendar_lines
              failing_upstream "nfl" (cached_world 0 [])
              (logged (cached_world 0 []) (base_team_url "football" "nfl"))
              0 [] (REFRESH_INTERVAL + 1) a_today RequestException)
    as (Hget & _ & Hentry & _).
  - reflexivity.
  - vm_compute. reflexivity.
  - reflexivity.
  - split; [exact Hget | exact Hentry].
Defined.

Lemma empty_cache_failure_witness :
  get_cached_calendar IsoFormat.fromisoformat calendar_lines failing_upstream
    0 a_today "nfl" world_init
  = (Raise RequestException, logged world_init (base_team_url "football" "nfl")).
Proof.
  apply (proj1 (empty_cache_failure IsoFormat.fromisoformat calendar_lines
                  failing_upstream "nfl" world_init
                  {| last_fetch := None; ical_bytes := None |} 0 a_today
                  eq_refl (or_introl (conj eq_refl eq_refl))));
    reflexivity.
Defined.

Lemma chiefs_bills_end_to_end_witness :
  exists e w',
    fetch_league_events IsoFormat.fromisoformat calendar_lines
      (two_team_upstream chiefs_bills) a_today "nfl" world_init
    = (Ok (calendar_lines {| prodid := "-//Homepage Sports Calendar//NFL//EN";
                             version := "2.0";
                             components := [e] |}),
       w')
    /\ summary e = "Buffalo Bills @ Kansas City Chiefs"
    /\ uid e = "nfl-401547439@sports"
    /\ vDatetime_to_ical (dtstart e) = "20251112T182000Z"
    /\ vDatetime_to_ical (dtend e) = "20251112T212000Z".
Proof.
  assert (Hwin : a_today - 30 <= ymd2ord 2025 11 12 <= a_today + 365)
    by (vm_compute; split; discriminate).
  destruct (chiefs_bills_end_to_end IsoFormat.fromisoformat calendar_lines
              a_today world_init eq_refl Hwin)
    as (e & w' & Hrun & _ & _ & Hsum & Huid & Hstart & Hend).
  exists e, w'. repeat split; assumption.
Defined.

Lemma dedup_one_entry_per_identifier_witness :
  exists sp hours prodid prefix d cal,
    league_config "nfl" = Ok (sp, hours, prodid, prefix)
    /\ fetch_events_by_id (two_team_upstream chiefs_bills) sp "nfl" world_init
       = (Ok d,
          logged (logged (logged world_init (base_team_url "football" "nfl"))
                    (schedule_url "football" "nfl" (JStr "12")))
            (schedule_url "football" "nfl" (JStr "2")))
    /\ build_calendar_cal IsoFormat.fromisoformat a_today d prodid prefix hours = Ok cal
    /\ NoDup (keys d) /\ keyed_by_id d.
Proof.
  destruct (dedup_one_entry_per_identifier IsoFormat.fromisoformat calendar_lines
              (two_team_upstream chiefs_bills) a_today "nfl" world_init
              (logged (logged (logged world_init (base_team_url "football" "nfl"))
                         (schedule_url "football" "nfl" (JStr "12")))
                 (schedule_url "football" "nfl" (JStr "2")))
              (calendar_lines
                 {| prodid := "-//Homepage Sports Calendar//NFL//EN";
                    version := "2.0";
                    components :=
                      [{| summary := "Buffalo Bills @ Kansas City Chiefs";
                          dtstart := mk_datetime 2025 11 12 18 20 0 0 (Some 0);
                          dtend := mk_datetime 2025 11 12 21 20 0 0 (Some 0);
                          uid := "nfl-401547439@sports";
                          location := None;
                          description := None |}] |})
              eq_refl)
    as (sp & hours & prodid & prefix & d & cal & urls
        & Hcfg & Hd & Hcal & _ & Hnd & Hkd & _).
  exists sp, hours, prodid, prefix, d, cal. repeat split; assumption.
Defined.

(** The claim of C1 as it is written fails here: both teams' schedules
    list game "401547439", and the calendar holds no event at all, because
    the game, played in the year 2000, is outside the window. *)
Lemma dedup_exactly_one_event_counterexample :
  exists cal w',
    (forall log team_id,
        team_id = "12" \/ team_id = "2" ->
        two_team_upstream old_game log (schedule_url "football" "nfl" (JStr team_id))
        = Ok (JObj [("events", JArr [old_game])]))
    /\ record_key old_game = Some (KStr "401547439")
    /\ fetch_events_by_id (two_team_upstream old_game) "football" "nfl" world_init
       = (Ok [(KStr "401547439", old_game)], w')
    /\ build_calendar_cal IsoFormat.fromisoformat a_today
         [(KStr "401547439", old_game)]
         "-//Homepage Sports Calendar//NFL//EN" "nfl" 3%Q = Ok cal
    /\ fetch_league_events IsoFormat.fromisoformat calendar_lines
         (two_team_upstream old_game) a_today "nfl" world_init
       = (Ok (calendar_lines cal), w')
    /\ components cal = []
    /\ length (components cal) <> 1%nat.
Proof.
  exists {| prodid := "-//Homepage Sports Calendar//NFL//EN";
            version := "2.0"; components := [] |}.
  exists (logged (logged (logged world_init (base_team_url "football" "nfl"))
                    (schedule_url "football" "nfl" (JStr "12")))
            (schedule_url "football" "nfl" (JStr "2"))).
  split; [|split; [|split; [|split; [|split; [|split]]]]].
  - intros log team_id [-> | ->]; reflexivity.
  - reflexivity.
  - reflexivity.
  - reflexivity.
  - reflexivity.
  - reflexivity.
  - discriminate.
Qed.


(** The claim of C6 as it is written fails here.  A record without
    ["competitions"], one with an empty list of them, and one whose
    competitor list is a home competitor and a [null] all lack a
    competitor tagged away (the first two lack both), their date is read
    and inside the window, and the loop body raises on each: at line 57
    for the first two, at line 61 for the third.  The batch is lost with
    it: the game that [build_calendar] turns into an event on its own is
    not processed when one of these records stands before it. *)
Lemma missing_competitor_no_raise_counterexample :
  (py_get (record_no_competitions "2025-11-12T18:20Z") "competitions" (JArr [])
   = Ok (JArr [])
   /\ translate_record IsoFormat.fromisoformat (a_today - 30) (a_today + 365)
        "nfl" 3%Q (record_no_competitions "2025-11-12T18:20Z")
      = Raise IndexError)
  /\ (py_get (record_empty_competitions "2025-11-12T18:20Z") "competitions"
        (JArr [])
      = Ok (JArr [])
      /\ translate_record IsoFormat.fromisoformat (a_today - 30) (a_today + 365)
           "nfl" 3%Q (record_empty_competitions "2025-11-12T18:20Z")
         = Raise IndexError)
  /\ ((let* competitions :=
         py_getitem (record_null_competitor "2025-11-12T18:20Z") "competitions" in
       let* comp := py_getitem0 competitions in
       py_getitem comp "competitors")
      = Ok (JArr [competitor "home" "Kansas City Chiefs"; JNull])
      /\ existsb (tagged "away") [competitor "home" "Kansas City Chiefs"; JNull]
         = false
      /\ translate_record IsoFormat.fromisoformat (a_today - 30) (a_today + 365)
           "nfl" 3%Q (record_null_competitor "2025-11-12T18:20Z")
         = Raise AttributeError)
  /\ build_calendar IsoFormat.fromisoformat calendar_lines a_today
       [(KStr "401547439", chiefs_bills)]
       "-//Homepage Sports Calendar//NFL//EN" "nfl" 3%Q
     = Ok (calendar_lines (nfl_calendar [chiefs_bills_event]))
  /\ build_calendar IsoFormat.fromisoformat calendar_lines a_today
       [(KStr "1", record_empty_competitions "2025-11-12T18:20Z");
        (KStr "401547439", chiefs_bills)]
       "-//Homepage Sports Calendar//NFL//EN" "nfl" 3%Q
     = Raise IndexError
  /\ build_calendar IsoFormat.fromisoformat calendar_lines a_today
       [(KStr "1", record_null_competitor "2025-11-12T18:20Z");
        (KStr "401547439", chiefs_bills)]
       "-//Homepage Sports Calendar//NFL//EN" "nfl" 3%Q
     = Raise AttributeError.
Proof.
  repeat split; reflexivity.
Qed.

(** * More of the code *)

(** ** [iso_to_utc]: every [Z] is rewritten *)

Lemma str_contains_app (c : ascii) (a b : string) :
  str_contains c (a +:+ b) = str_contains c a || str_contains c b.
Proof.
  induction a as [|x a IH]; [reflexivity|].
  rewrite append_cons. cbn [str_contains]. by rewrite IH, orb_assoc.
Qed.

Lemma str_contains_replace (s : string) (c : ascii) (new : string) :
  str_contains c new = false -> str_contains c (replace s c new) = false.
Proof.
  intros Hnew. induction s as [|x s IH]; [reflexivity|].
  cbn [replace]. destruct (Ascii.eqb x c) eqn:Hx.
  - by rewrite str_contains_app, Hnew, IH.
  - cbn [str_contains]. by rewrite Ascii.eqb_sym, Hx, IH.
Qed.

Lemma endswith_char_contains (s : string) (c : ascii) :
  endswith s (String c "") = true -> str_contains c s = true.
Proof.
  induction s as [|x s IH]; [discriminate|].
  cbn [endswith str_contains]. intros [H|H]%orb_prop.
  - apply String.eqb_eq in H. injection H as -> ->.
    by rewrite Ascii.eqb_refl.
  - rewrite (IH H). apply orb_true_r.
Qed.

Lemma length_append (a b : string) :
  String.length (a +:+ b) = (String.length a + String.length b)%nat.
Proof.
  induction a as [|x a IH]; [reflexivity|].
  rewrite append_cons. cbn [String.length]. by rewrite IH.
Qed.

Lemma append_inj_l (a b c : string) : a +:+ b = a +:+ c -> b = c.
Proof.
  induction a as [|x a IH]; [done|].
  rewrite !append_cons. intros [= H]. auto.
Qed.

Lemma append_inj_r (a b c : string) : a +:+ c = b +:+ c -> a = b.
Proof.
  revert b. induction a as [|x a IH]; intros [|y b] H.
  - reflexivity.
  - apply (f_equal String.length) in H. rewrite !length_append in H.
    cbn [String.length] in H. lia.
  - apply (f_equal String.length) in H. rewrite !length_append in H.
    cbn [String.length] in H. lia.
  - rewrite !append_cons in H. injection H as -> H. f_equal. auto.
Qed.

Section MoreFacts.

Variable fromisoformat : string -> result datetime.
Variable to_ical : Calendar -> bytes.
Variable upstream : list string -> string -> result json.

(** X1: when the string ends in [Z], every [Z] in it is rewritten, not
    only the last one: the rewritten text has no [Z] left, and
    [iso_to_utc] gives on the original what it gives on the rewritten
    text. *)
Theorem iso_to_utc_rewrites_every_Z (dt_str : string) :
  endswith dt_str "Z" = true ->
  str_contains "Z" (replace dt_str "Z" "+00:00") = false
  /\ iso_to_utc fromisoformat dt_str
     = iso_to_utc fromisoformat (replace dt_str "Z" "+00:00").
Proof.
  intros Hz.
  assert (Hfree : str_contains "Z" (replace dt_str "Z" "+00:00") = false)
    by (by apply str_contains_replace).
  split; [exact Hfree|].
  unfold iso_to_utc. rewrite Hz.
  destruct (endswith (replace dt_str "Z" "+00:00") "Z") eqn:Hend; [|reflexivity].
  apply endswith_char_contains in Hend. congruence.
Qed.

(** ** What every event of a feed looks like *)

Lemma record_start_utc (ev : json) (start : datetime) :
  record_start fromisoformat ev = Ok start -> tzinfo start = Some 0.
Proof.
  unfold record_start. intros H. apply bind_ok_inv in H as (d & _ & H).
  destruct d; try discriminate.
  unfold iso_to_utc in H. apply bind_ok_inv in H as (p & _ & H).
  by apply astimezone_utc_ok in H as [_ ?].
Qed.

Lemma datetime_add_ok (dt dt' : datetime) (td : Z) :
  datetime_add dt td = Ok dt' ->
  wall dt' = wall dt + td /\ tzinfo dt' = tzinfo dt.
Proof.
  unfold datetime_add. destruct (_ && _); [|discriminate].
  by intros [= <-].
Qed.

Lemma make_event_shape (prefix : string) (hours : Q) (ev : json)
    (start : datetime) (e : Event) :
  make_event prefix hours ev start = Ok (Some e) ->
  dtstart e = start
  /\ exists td ev_id home away home_team away_team home_name away_name,
       timedelta_hours hours = Ok td
       /\ wall (dtend e) = wall start + td
       /\ tzinfo (dtend e) = tzinfo start
       /\ py_getitem ev "id" = Ok ev_id
       /\ uid e = prefix +:+ "-" +:+ py_str ev_id +:+ "@sports"
       /\ tagged "home" home = true /\ tagged "away" away = true
       /\ py_getitem home "team" = Ok home_team
       /\ py_getitem home_team "displayName" = Ok home_name
       /\ py_getitem away "team" = Ok away_team
       /\ py_getitem away_team "displayName" = Ok away_name
       /\ summary e = py_str away_name +:+ " @ " +:+ py_str home_name.
Proof.
  unfold make_event. intros H.
  destruct (py_get ev "competitions" (JArr [])) as [competitions|]; [|discriminate].
  cbn [bind] in H.
  destruct (py_getitem0 competitions) as [comp|]; [|discriminate]. cbn [bind] in H.
  destruct (py_get comp "competitors" (JArr [])) as [teams|]; [|discriminate].
  cbn [bind] in H.
  destruct (py_iter teams) as [ts|]; [|discriminate]. cbn [bind] in H.
  destruct (next_tagged "home" ts) as [home|] eqn:Hhome; [|discriminate].
  cbn [bind] in H.
  destruct (next_tagged "away" ts) as [away|] eqn:Haway; [|discriminate].
  cbn [bind] in H.
  destruct (negb (py_truthy home) || negb (py_truthy away)) eqn:Hskip;
    [discriminate|].
  apply orb_false_elim in Hskip as [Hh Ha].
  apply negb_false_iff in Hh. apply negb_false_iff in Ha.
  destruct (py_getitem home "team") as [home_team|] eqn:H1; [|discriminate].
  cbn [bind] in H.
  destruct (py_getitem home_team "displayName") as [home_name|] eqn:H2;
    [|discriminate]. cbn [bind] in H.
  destruct (py_getitem away "team") as [away_team|] eqn:H3; [|discriminate].
  cbn [bind] in H.
  destruct (py_getitem away_team "displayName") as [away_name|] eqn:H4;
    [|discriminate]. cbn [bind] in H.
  destruct (py_getitem ev "id") as [ev_id|] eqn:H5; [|discriminate].
  cbn [bind] in H.
  destruct (timedelta_hours hours) as [td|] eqn:H6; [|discriminate].
  cbn [bind] in H.
  destruct (datetime_add start td) as [end_|] eqn:H7; [|discriminate].
  cbn [bind] in H. inv_bind H. injection H as <-. cbn.
  apply datetime_add_ok in H7 as [Hw Htz].
  split; [reflexivity|].
  assert (Htag : forall tag t, next_tagged tag ts = Ok t -> py_truthy t = true ->
                   tagged tag t = true).
  { clear. intros tag t. induction ts as [|x ts IH]; cbn [next_tagged].
    - by intros [= <-].
    - destruct x as [| | | | |m]; try discriminate. cbn [py_get bind].
      unfold tagged at 1.
      destruct (py_eq_str (default JNull (dict_lookup "homeAway" m)) tag) eqn:Heq;
        [|exact IH].
      intros [= <-] _. unfold tagged.
      destruct (dict_lookup "homeAway" m); [exact Heq | discriminate Heq]. }
  exists td, ev_id, home, away, home_team, away_team, home_name, away_name.
  repeat split; eauto.
Qed.


Lemma translate_all_Forall (P : Event -> Prop) sw ew prefix hours
    (evs : list json) (comps : list Event) :
  (forall ev e,
      translate_record fromisoformat sw ew prefix hours ev = Ok (Some e) -> P e) ->
  translate_all fromisoformat sw ew prefix hours evs = Ok comps ->
  Forall P comps.
Proof.
  intros HP. revert comps. induction evs as [|ev evs IH]; cbn [translate_all];
    intros comps H.
  - injection H as <-. constructor.
  - destruct (translate_record _ _ _ _ _ ev) as [oe|] eqn:Hev; [|discriminate].
    cbn [bind] in H.
    destruct (translate_all _ _ _ _ _ evs) as [rest|]; [|discriminate].
    cbn [bind] in H. injection H as <-.
    destruct oe as [e|]; [constructor|]; eauto.
Qed.

(** X2: every event of a feed that [fetch_league_events] returns starts
    and ends in UTC, ends three hours after it starts in the NFL feed and
    two and a half in the NBA feed, and starts inside the window; the
    calendar carries version 2.0 and holds at most one event per record of
    the dedup map. *)
Theorem feed_events_shape (today : Z) (league : string) (w w' : World) (b : bytes) :
  fetch_league_events fromisoformat to_ical upstream today league w = (Ok b, w') ->
  exists cal d sp,
    b = to_ical cal
    /\ fetch_events_by_id upstream sp league w = (Ok d, w')
    /\ version cal = "2.0"
    /\ (length (components cal) <= length d)%nat
    /\ Forall (fun e =>
                 tzinfo (dtstart e) = Some 0
                 /\ tzinfo (dtend e) = Some 0
                 /\ today - 30 <= date_of (dtstart e) <= today + 365
                 /\ ((league = "nfl"
                      /\ wall (dtend e) = wall (dtstart e) + 3 * US_PER_HOUR)
                     \/ (league = "nba"
                         /\ wall (dtend e)
                            = wall (dtstart e) + 9000 * US_PER_SECOND)))
         (components cal).
Proof.
  intros H.
  apply fetch_league_events_ok in H
    as (sp & hours & prodid & prefix & d & cal & Hcfg & Hf & Hcal & ->).
  exists cal, d, sp. do 2 (split; [done|]).
  unfold build_calendar_cal in Hcal.
  destruct (date_add_days today (-30)) as [sw|] eqn:Hsw; [|discriminate].
  destruct (date_add_days today 365) as [ew|] eqn:Hew; [|discriminate].
  apply date_add_days_ok in Hsw as ->. apply date_add_days_ok in Hew as ->.
  replace (today + -30) with (today - 30) in Hcal by lia.
  cbn [bind] in Hcal.
  destruct (translate_all _ _ _ _ _ _) as [comps|] eqn:Hall; [|discriminate].
  cbn [bind] in Hcal. injection Hcal as <-. cbn [version components].
  split; [reflexivity|]. split.
  - clear -Hall. unfold dict_values in Hall. revert comps Hall.
    induction d as [|kv d IH]; cbn [map translate_all]; intros comps H.
    + by injection H as <-.
    + destruct (translate_record _ _ _ _ _ _) as [oe|]; [|discriminate].
      cbn [bind] in H.
      destruct (translate_all _ _ _ _ _ _) as [rest|]; [|discriminate].
      cbn [bind] in H. injection H as <-.
      specialize (IH rest eq_refl). destruct oe; cbn [length]; lia.
  - eapply translate_all_Forall; [|exact Hall].
    intros ev e Hev.
    destruct (translate_record_event _ _ _ _ _ _ _ Hev) as [Hstart Hwin].
    pose proof (record_start_utc _ _ Hstart) as Hutc.
    rewrite (translate_record_inside _ _ _ _ _ _ _ Hstart Hwin) in Hev.
    apply make_event_shape in Hev
      as (_ & td & ? & ? & ? & ? & ? & ? & ? & Htd & Hend & Htz & _).
    split; [done|]. split; [by rewrite Htz|]. split; [done|].
    unfold league_config in Hcfg.
    destruct (String.eqb league "nfl") eqn:Hnfl.
    + injection Hcfg as <- <- <- <-. apply String.eqb_eq in Hnfl.
      left. split; [done|]. rewrite Hend. by injection Htd as <-.
    + destruct (String.eqb league "nba") eqn:Hnba; [|discriminate].
      injection Hcfg as <- <- <- <-. apply String.eqb_eq in Hnba.
      right. split; [done|]. rewrite Hend. by injection Htd as <-.
Qed.


(** ** Unique identifiers *)

Lemma record_key_str (ev : json) (s : string) :
  record_key ev = Some (KStr s) -> py_getitem ev "id" = Ok (JStr s).
Proof.
  unfold record_key. destruct ev as [| | | | |m]; try discriminate.
  simpl. destruct (dict_lookup "id" m) as [ev_id|]; simpl; [|discriminate].
  destruct ev_id; simpl; repeat case_match; try discriminate.
  by intros [= ->].
Qed.

Lemma uid_of_str_key sw ew prefix hours (ev : json) (e : Event) (s : string) :
  translate_record fromisoformat sw ew prefix hours ev = Ok (Some e) ->
  record_key ev = Some (KStr s) ->
  uid e = prefix +:+ "-" +:+ s +:+ "@sports".
Proof.
  intros Hev Hk.
  destruct (translate_record_event _ _ _ _ _ _ _ Hev) as [Hstart Hwin].
  rewrite (translate_record_inside _ _ _ _ _ _ _ Hstart Hwin) in Hev.
  apply make_event_shape in Hev
    as (_ & td & ev_id & ? & ? & ? & ? & ? & ? & _ & _ & _ & Hid & Huid & _).
  rewrite (record_key_str _ _ Hk) in Hid. by injection Hid as <-.
Qed.


Lemma uid_inj (prefix s s' : string) :
  prefix +:+ "-" +:+ s +:+ "@sports" = prefix +:+ "-" +:+ s' +:+ "@sports" ->
  s = s'.
Proof.
  intros H. apply append_inj_l, append_inj_l in H. by apply append_inj_r in H.
Qed.

Lemma translate_all_uids sw ew prefix hours (d : pydict) (comps : list Event) :
  NoDup (keys d) -> keyed_by_id d ->
  forallb is_str_key (keys d) = true ->
  translate_all fromisoformat sw ew prefix hours (dict_values d) = Ok comps ->
  NoDup (map uid comps)
  /\ Forall (fun e => exists s, KStr s ∈ keys d
                                /\ uid e = prefix +:+ "-" +:+ s +:+ "@sports")
       comps.
Proof.
  unfold keys, dict_values, keyed_by_id. revert comps.
  induction d as [|[k ev] d IH]; cbn [map fst snd translate_all forallb];
    intros comps Hnd Hkd Hstr H.
  - injection H as <-. split; constructor.
  - apply NoDup_cons in Hnd as [Hk Hnd]. apply Forall_cons in Hkd as [Hev Hkd].
    apply andb_prop in Hstr as [Hks Hstr]. cbn [fst snd] in Hev.
    destruct (translate_record _ _ _ _ _ ev) as [oe|] eqn:Ht; [|discriminate].
    cbn [bind] in H.
    destruct (translate_all _ _ _ _ _ _) as [rest|]; [|discriminate].
    cbn [bind] in H. injection H as <-.
    destruct (IH rest Hnd Hkd Hstr eq_refl) as [Hnd' Hall].
    assert (Hall' : Forall (fun e => exists s, KStr s ∈ k :: map fst d
                              /\ uid e = prefix +:+ "-" +:+ s +:+ "@sports") rest).
    { eapply Forall_impl; [exact Hall|]. intros e (s & Hin & Hu).
      exists s. split; [by right | done]. }
    destruct oe as [e|]; [|done].
    destruct k as [| |s]; try discriminate.
    pose proof (uid_of_str_key _ _ _ _ _ _ _ Ht Hev) as Hu.
    split.
    + cbn [map]. apply NoDup_cons. split; [|done].
      intros Hin. apply list_elem_of_fmap in Hin as (e' & He' & Hin).
      rewrite Forall_forall in Hall. destruct (Hall e' Hin) as (s' & Hs' & Hu').
      rewrite Hu, Hu' in He'. apply uid_inj in He' as ->. done.
    + constructor; [|done]. exists s. split; [by left | done].
Qed.

(** X3: when every identifier that reached the dedup map is a [str], the
    events of the feed have pairwise distinct UIDs. *)
Theorem feed_uids_distinct (today : Z) (league : string) (w w' : World) (b : bytes) :
  fetch_league_events fromisoformat to_ical upstream today league w = (Ok b, w') ->
  exists cal d sp,
    b = to_ical cal
    /\ fetch_events_by_id upstream sp league w = (Ok d, w')
    /\ (forallb is_str_key (keys d) = true -> NoDup (map uid (components cal))).
Proof.
  intros H.
  apply fetch_league_events_ok in H
    as (sp & hours & prodid & prefix & d & cal & Hcfg & Hf & Hcal & ->).
  exists cal, d, sp. do 2 (split; [done|]). intros Hstr.
  destruct (fetch_events_by_id_spec _ _ _ _ _ _ Hf) as (Hnd & Hkd & _).
  unfold build_calendar_cal in Hcal.
  destruct (date_add_days today (-30)) as [sw|]; [|discriminate].
  destruct (date_add_days today 365) as [ew|]; [|discriminate].
  cbn [bind] in Hcal.
  destruct (translate_all _ _ _ _ _ _) as [comps|] eqn:Hall; [|discriminate].
  cbn [bind] in Hcal. injection Hcal as <-. cbn [components].
  by destruct (translate_all_uids _ _ _ _ _ _ Hnd Hkd Hstr Hall).
Qed.


(** ** Which record the dedup map keeps *)

Lemma pydict_lookup_dict_set (k k' : dict_key) (v : json) (d : pydict) :
  pydict_lookup k (dict_set k' v d)
  = if decide (k = k') then Some v else pydict_lookup k d.
Proof.
  induction d as [|[k0 v0] d IH]; cbn [dict_set pydict_lookup].
  - by destruct (decide (k = k')).
  - destruct (decide (k' = k0)) as [->|Hne]; cbn [pydict_lookup].
    + by destruct (decide (k = k0)).
    + rewrite IH. destruct (decide (k = k0)) as [->|]; [|done].
      by rewrite decide_False by done.
Qed.

Lemma pydict_lookup_None (k : dict_key) (d : pydict) :
  k ∉ keys d -> pydict_lookup k d = None.
Proof.
  unfold keys. induction d as [|[k0 v0] d IH]; cbn [map fst pydict_lookup];
    [done|].
  intros Hk. apply not_elem_of_cons in Hk as [Hne Hk].
  by rewrite decide_False, IH by done.
Qed.

Lemma collect_events_cons (ev : json) (evs : list json) (d : pydict) :
  collect_events (ev :: evs) d
  = match py_get ev "id" JNull with
    | Raise e => Raise e
    | Ok ev_id =>
        if py_truthy ev_id
        then match py_key ev_id with
             | Ok k => collect_events evs (dict_set k ev d)
             | Raise e => Raise e
             end
        else collect_events evs d
    end.
Proof.
  cbn [collect_events]. destruct (py_get ev "id" JNull) as [ev_id|]; [|done].
  cbn [bind]. destruct (py_truthy ev_id); [|done]. by destruct (py_key ev_id).
Qed.

Lemma collect_events_lookup (evs : list json) (d d' : pydict) (k : dict_key) :
  collect_events evs d = Ok d' ->
  pydict_lookup k d'
  = match last_with_key k evs with
    | Some ev => Some ev
    | None => pydict_lookup k d
    end.
Proof.
  revert d. induction evs as [|ev evs IH]; intros d H.
  - by injection H as <-.
  - rewrite collect_events_cons in H. cbn [last_with_key].
    destruct (py_get ev "id" JNull) as [ev_id|] eqn:Hid; [|discriminate].
    destruct (py_truthy ev_id) eqn:Htruthy.
    + destruct (py_key ev_id) as [k0|] eqn:Hk0; [|discriminate].
      assert (Hrk : record_key ev = Some k0)
        by (unfold record_key; by rewrite Hid, Htruthy, Hk0).
      rewrite (IH _ H), pydict_lookup_dict_set, Hrk.
      destruct (last_with_key k evs); [done|].
      destruct (decide (k = k0)) as [->|Hne].
      * by rewrite decide_True.
      * rewrite decide_False; [done|]. by intros [= ->].
    + assert (Hrk : record_key ev = None)
        by (unfold record_key; by rewrite Hid, Htruthy).
      rewrite (IH _ H), Hrk. by destruct (last_with_key k evs).
Qed.

Lemma last_with_key_None (k : dict_key) (evs : list json) :
  (forall ev, ev ∈ evs -> record_key ev <> Some k) -> last_with_key k evs = None.
Proof.
  induction evs as [|ev evs IH]; [done|]. intros H. cbn [last_with_key].
  rewrite IH by (intros; apply H; by right).
  rewrite decide_False; [done|]. apply H. by left.
Qed.

Lemma last_with_key_app (k : dict_key) (evs1 evs2 : list json) :
  last_with_key k (evs1 ++ evs2)
  = match last_with_key k evs2 with
    | Some ev => Some ev
    | None => last_with_key k evs1
    end.
Proof.
  induction evs1 as [|ev evs1 IH]; cbn [app last_with_key].
  - by destruct (last_with_key k evs2).
  - rewrite IH. by destruct (last_with_key k evs2).
Qed.

(** X4: the dedup map keeps, for an identifier, the record that came last:
    a record of the schedule with no later record under its identifier is
    the one found in the map; and an identifier the schedule does not list
    keeps the record it had. *)
Theorem last_seen_wins (evs1 evs2 : list json) (ev : json) (k : dict_key)
    (d d' : pydict) :
  collect_events (evs1 ++ ev :: evs2) d = Ok d' ->
  (record_key ev = Some k ->
   (forall ev', ev' ∈ evs2 -> record_key ev' <> Some k) ->
   pydict_lookup k d' = Some ev)
  /\ (forall k',
        (forall ev', ev' ∈ evs1 ++ ev :: evs2 -> record_key ev' <> Some k') ->
        pydict_lookup k' d' = pydict_lookup k' d).
Proof.
  intros H. split.
  - intros Hk Hlater. rewrite (collect_events_lookup _ _ _ k H).
    rewrite last_with_key_app. cbn [last_with_key].
    rewrite (last_with_key_None _ _ Hlater). by rewrite decide_True.
  - intros k' Hnone. rewrite (collect_events_lookup _ _ _ k' H).
    by rewrite (last_with_key_None _ _ Hnone).
Qed.

(** ** Listing a schedule twice *)

Lemma collect_events_app (evs1 evs2 : list json) (d : pydict) :
  collect_events (evs1 ++ evs2) d
  = let* d1 := collect_events evs1 d in collect_events evs2 d1.
Proof.
  revert d. induction evs1 as [|ev evs1 IH]; intros d; [done|].
  cbn [app]. rewrite !collect_events_cons.
  destruct (py_get ev "id" JNull) as [ev_id|]; [|done].
  destruct (py_truthy ev_id); [|by rewrite IH].
  destruct (py_key ev_id); [by rewrite IH | done].
Qed.

Lemma collect_events_keys_known (evs : list json) (d d' : pydict) :
  collect_events evs d = Ok d' ->
  (forall ev k, ev ∈ evs -> record_key ev = Some k -> k ∈ keys d) ->
  keys d' = keys d.
Proof.
  revert d. induction evs as [|ev evs IH]; intros d H Hknown.
  - by injection H as <-.
  - rewrite collect_events_cons in H.
    destruct (py_get ev "id" JNull) as [ev_id|] eqn:Hid; [|discriminate].
    destruct (py_truthy ev_id) eqn:Htruthy.
    + destruct (py_key ev_id) as [k0|] eqn:Hk0; [|discriminate].
      assert (Hrk : record_key ev = Some k0)
        by (unfold record_key; by rewrite Hid, Htruthy, Hk0).
      assert (Hin : k0 ∈ keys d) by (eapply Hknown; [by left | done]).
      rewrite (IH _ H).
      * rewrite keys_dict_set. by rewrite decide_True.
      * intros ev' k Hev' Hk. apply dict_set_keys_elem. right.
        eapply Hknown; [by right | done].
    + apply (IH _ H). intros ev' k Hev' Hk. eapply Hknown; [by right | done].
Qed.

Lemma collect_events_total (evs : list json) (d d' d0 : pydict) :
  collect_events evs d = Ok d' -> exists d0', collect_events evs d0 = Ok d0'.
Proof.
  revert d d0. induction evs as [|ev evs IH]; intros d d0 H; [by eexists|].
  rewrite collect_events_cons in *.
  destruct (py_get ev "id" JNull) as [ev_id|]; [|discriminate].
  destruct (py_truthy ev_id); [|eauto].
  destruct (py_key ev_id); [eauto | discriminate].
Qed.

Lemma pydict_ext (d1 d2 : pydict) :
  NoDup (keys d1) -> keys d1 = keys d2 ->
  (forall k, pydict_lookup k d1 = pydict_lookup k d2) ->
  d1 = d2.
Proof.
  unfold keys. revert d2. induction d1 as [|[k v] d1 IH]; intros [|[k2 v2] d2];
    cbn [map fst]; try done.
  intros Hnd [= <- Hkeys] Hlook. apply NoDup_cons in Hnd as [Hk Hnd].
  pose proof (Hlook k) as Hv. cbn [pydict_lookup] in Hv.
  rewrite !decide_True in Hv by done. injection Hv as <-.
  f_equal. apply IH; [done | done |].
  intros k'. destruct (decide (k' = k)) as [->|Hne].
  - rewrite (pydict_lookup_None k d1) by done.
    rewrite (pydict_lookup_None k d2); [done|]. unfold keys. by rewrite <- Hkeys.
  - specialize (Hlook k'). cbn [pydict_lookup] in Hlook.
    by rewrite !decide_False in Hlook by done.
Qed.

(** X5: deduplication is idempotent: a schedule listed twice in a row
    leaves the map that listing it once leaves, and raises what listing it
    once raises. *)
Theorem dedup_idempotent (evs : list json) (d : pydict) :
  NoDup (keys d) ->
  collect_events (evs ++ evs) d = collect_events evs d.
Proof.
  intros Hnd. rewrite collect_events_app.
  destruct (collect_events evs d) as [d'|e] eqn:H; [|done]. cbn [bind].
  destruct (collect_events_total _ _ _ d' H) as [d'' H'].
  rewrite H'. f_equal. symmetry.
  assert (Hnd' : NoDup (keys d')).
  { clear -H Hnd. revert d H Hnd. induction evs as [|ev evs IH]; intros d H Hnd.
    - by injection H as <-.
    - rewrite collect_events_cons in H.
      destruct (py_get ev "id" JNull) as [ev_id|]; [|discriminate].
      destruct (py_truthy ev_id); [|eauto].
      destruct (py_key ev_id); [|discriminate].
      eapply IH; [exact H|]. by apply dict_set_NoDup. }
  assert (Hin : forall ev k, ev ∈ evs -> record_key ev = Some k -> k ∈ keys d').
  { clear -H. revert d H. induction evs as [|ev evs IH]; intros d H ev' k Hev' Hk.
    - by apply elem_of_nil in Hev'.
    - rewrite collect_events_cons in H.
      destruct (py_get ev "id" JNull) as [ev_id|] eqn:Hid; [|discriminate].
      destruct (py_truthy ev_id) eqn:Htruthy.
      + destruct (py_key ev_id) as [k0|] eqn:Hk0; [|discriminate].
        apply elem_of_cons in Hev' as [->|Hev']; [|eauto].
        unfold record_key in Hk. rewrite Hid, Htruthy, Hk0 in Hk.
        injection Hk as <-.
        assert (Hmono : forall evs d d', collect_events evs d = Ok d' ->
                  forall k, k ∈ keys d -> k ∈ keys d').
        { clear. induction evs as [|ev evs IH]; intros d d' H k Hk.
          - by injection H as <-.
          - rewrite collect_events_cons in H.
            destruct (py_get ev "id" JNull) as [ev_id|]; [|discriminate].
            destruct (py_truthy ev_id); [|eauto].
            destruct (py_key ev_id); [|discriminate].
            eapply IH; [exact H|]. apply dict_set_keys_elem. by right. }
        eapply Hmono; [exact H|]. apply dict_set_keys_elem. by left.
      + apply elem_of_cons in Hev' as [->|Hev']; [|eauto].
        unfold record_key in Hk. by rewrite Hid, Htruthy in Hk. }
  apply pydict_ext; [done | |].
  - symmetry. by apply (collect_events_keys_known evs).
  - intros k. rewrite (collect_events_lookup _ _ _ k H').
    rewrite (collect_events_lookup _ _ _ k H).
    by destruct (last_with_key k evs).
Qed.


(** ** The requests of one aggregation *)

Lemma fetch_schedules_requests sp lg (teams : list json) (d d' : pydict)
    (w w' : World) :
  fetch_schedules upstream sp lg teams d w = (Ok d', w') ->
  requests_log w' = requests_log w ++ omap (team_request sp lg) teams.
Proof.
  revert d w. induction teams as [|t teams IH]; intros d w H.
  - injection H as _ <-. cbn [omap]. by rewrite app_nil_r.
  - rewrite fetch_schedules_cons in H. cbv zeta in H.
    cbn [omap list_omap]. unfold team_request at 1.
    destruct (py_get t "team" JNull) as [team|]; [|discriminate].
    destruct (py_get _ "id" JNull) as [team_id|]; [|discriminate].
    destruct (py_truthy team_id); cbn [negb] in H; [|by apply IH in H].
    assert (Hnext : forall d1,
      fetch_schedules upstream sp lg teams d1
        (logged w (schedule_url sp lg team_id)) = (Ok d', w') ->
      requests_log w'
      = requests_log w ++ schedule_url sp lg team_id
                          :: omap (team_request sp lg) teams).
    { intros d1 H1. apply IH in H1. rewrite H1. cbn [logged requests_log].
      by rewrite <- app_assoc. }
    destruct (upstream _ _) as [s_data|]; [|eauto].
    destruct (py_get s_data "events" (JArr [])) as [events|]; [|discriminate].
    destruct (py_iter events) as [evs|]; [|discriminate].
    destruct (collect_events evs d) as [d1|]; [eauto | discriminate].
Qed.

(** X6: an aggregation that succeeds has sent the listing request first
    and then one schedule request for each team entry with a truthy
    identifier, in listing order, and nothing else: at most one request per
    listed team beyond the listing. *)
Theorem requests_of_aggregation sp lg (w w' : World) (d : pydict) :
  fetch_events_by_id upstream sp lg w = (Ok d, w') ->
  exists data teams ts,
    upstream (requests_log w) (base_team_url sp lg) = Ok data
    /\ listing_teams data = Ok teams
    /\ py_iter teams = Ok ts
    /\ requests_log w'
       = requests_log w ++ base_team_url sp lg :: omap (team_request sp lg) ts
    /\ (length (requests_log w') <= length (requests_log w) + 1 + length ts)%nat.
Proof.
  unfold fetch_events_by_id, bindM, lift, http_get_json. intros H.
  destruct (upstream _ _) as [data|] eqn:Hup; [|discriminate].
  change (bind (py_getitem data "sports") _) with (listing_teams data) in H.
  destruct (listing_teams data) as [teams|] eqn:Hteams; [|discriminate].
  destruct (py_len teams); [|discriminate].
  destruct (py_iter teams) as [ts|] eqn:Hiter; [|discriminate].
  apply fetch_schedules_requests in H. cbn [logged requests_log] in H.
  rewrite <- app_assoc in H. cbn [app] in H.
  exists data, teams, ts. do 4 (split; [done|]).
  rewrite H, length_app. cbn [length].
  assert (Hle : (length (omap (team_request sp lg) ts) <= length ts)%nat).
  { clear. induction ts as [|t ts IH]; cbn [omap list_omap length]; [done|].
    destruct (team_request sp lg t); cbn [length]; lia. }
  lia.
Qed.

(** ** A schedule endpoint that is down *)

Lemma fetch_schedules_all_failed sp lg (teams : list json) (d : pydict) (w : World) :
  forallb team_ok teams = true ->
  (forall log team_id, is_ok (upstream log (schedule_url sp lg team_id)) = false) ->
  fetch_schedules upstream sp lg teams d w
  = (Ok d,
     {| CACHE := CACHE w;
        requests_log := requests_log w ++ omap (team_request sp lg) teams |}).
Proof.
  intros Hok Hdown. revert w. induction teams as [|t teams IH]; intros w.
  - cbn [fetch_schedules omap list_omap]. unfold ret. rewrite app_nil_r.
    by destruct w.
  - cbn [forallb] in Hok. apply andb_prop in Hok as [Ht Hok].
    rewrite fetch_schedules_cons. cbv zeta.
    cbn [omap list_omap]. unfold team_request at 1.
    destruct t as [| | | | |m]; try discriminate. cbn [team_ok] in Ht.
    cbn [py_get].
    assert (Hinfo : exists m', (if py_truthy (default JNull (dict_lookup "team" m))
                                then default JNull (dict_lookup "team" m)
                                else JObj []) = JObj m').
    { destruct (dict_lookup "team" m) as [team|]; cbn [default from_option id] in *;
        [|exists []; reflexivity].
      destruct (py_truthy team); [|exists []; reflexivity].
      destruct team as [| | | | |m']; try discriminate. exists m'. reflexivity. }
    destruct Hinfo as [m' ->]. cbn [py_get].
    destruct (py_truthy (default JNull (dict_lookup "id" m'))); cbn [negb];
      [|by apply IH].
    specialize (Hdown (requests_log w) (default JNull (dict_lookup "id" m'))).
    destruct (upstream _ _); [discriminate|].
    rewrite (IH Hok). cbn [logged CACHE requests_log]. by rewrite <- app_assoc.
Qed.

(** X7: when the listing is served with a list of team entries that are
    all objects whose ["team"] is absent, falsy or an object, and every
    schedule request fails, the aggregation still succeeds, for a today
    whose window exists: teams are skipped one by one, each after its one
    request, and [fetch_league_events] returns a calendar with no
    event. *)
Theorem schedule_failures_tolerated
    (today : Z) (league sp prodid prefix : string) (hours : Q)
    (w : World) (data : json) (ts : list json) :
  league_config league = Ok (sp, hours, prodid, prefix) ->
  upstream (requests_log w) (base_team_url sp league) = Ok data ->
  listing_teams data = Ok (JArr ts) ->
  forallb team_ok ts = true ->
  (forall log team_id,
      is_ok (upstream log (schedule_url sp league team_id)) = false) ->
  31 <= today <= MAXORDINAL - 365 ->
  fetch_league_events fromisoformat to_ical upstream today league w
  = (Ok (to_ical {| prodid := prodid; version := "2.0"; components := [] |}),
     {| CACHE := CACHE w;
        requests_log := requests_log w
                        ++ base_team_url sp league
                           :: omap (team_request sp league) ts |}).
Proof.
  intros Hcfg Hlist Hteams Hok Hdown Htoday.
  unfold fetch_league_events, bindM, lift. rewrite Hcfg. cbv beta iota.
  unfold fetch_events_by_id, bindM, lift, http_get_json. rewrite Hlist.
  change (bind (py_getitem data "sports") _) with (listing_teams data).
  rewrite Hteams. cbn [py_len py_iter].
  rewrite (fetch_schedules_all_failed _ _ _ _ _ Hok Hdown).
  unfold build_calendar, build_calendar_cal, date_add_days, MAXORDINAL in *.
  replace ((0 <? today + -30) && (today + -30 <=? 3652059)) with true by lia.
  replace ((0 <? today + 365) && (today + 365 <=? 3652059)) with true by lia.
  cbn [bind dict_values map translate_all logged CACHE requests_log].
  by rewrite <- app_assoc.
Qed.

(** X8: when the listing request fails, or its response does not have the
    teams where the code looks for them, [fetch_league_events] raises that
    very error after this one request: no schedule is asked for. *)
Theorem listing_failure_propagates
    (today : Z) (league sp prodid prefix : string) (hours : Q) (w : World) :
  league_config league = Ok (sp, hours, prodid, prefix) ->
  (forall e,
      upstream (requests_log w) (base_team_url sp league) = Raise e ->
      fetch_league_events fromisoformat to_ical upstream today league w
      = (Raise e, logged w (base_team_url sp league)))
  /\ (forall data e,
        upstream (requests_log w) (base_team_url sp league) = Ok data ->
        listing_teams data = Raise e ->
        fetch_league_events fromisoformat to_ical upstream today league w
        = (Raise e, logged w (base_team_url sp league))).
Proof.
  intros Hcfg.
  split; [intros e Hup | intros data e Hup Hteams];
    unfold fetch_league_events, bindM, lift; rewrite Hcfg; cbv beta iota;
    unfold fetch_events_by_id, bindM, lift, http_get_json; rewrite Hup;
    [reflexivity|].
  change (bind (py_getitem data "sports") _) with (listing_teams data).
  by rewrite Hteams.
Qed.


(** ** What a call does to the cache *)

Lemma get_cached_calendar_no_entry clock today league (w : World) :
  CACHE w !! league = None ->
  get_cached_calendar fromisoformat to_ical upstream clock today league w
  = (Raise KeyError, w).
Proof.
  intros H. unfold get_cached_calendar, bindM, cache_lookup. by rewrite H.
Qed.

Lemma refresh_effect now today league (w w' : World) (r : result bytes) :
  refresh fromisoformat to_ical upstream now today league w = (r, w') ->
  (exists urls, requests_log w' = requests_log w ++ urls)
  /\ (CACHE w' = CACHE w
      \/ exists b w1,
           r = Ok b
           /\ fetch_league_events fromisoformat to_ical upstream today league w
              = (Ok b, w1)
           /\ requests_log w' = requests_log w1
           /\ CACHE w'
              = <[league := {| last_fetch := Some now; ical_bytes := Some b |}]>
                  (CACHE w)).
Proof.
  intros H.
  destruct (fetch_league_events fromisoformat to_ical upstream today league w)
    as [[b|e] w1] eqn:Hf.
  - rewrite (refresh_ok _ _ _ _ _ _ _ _ _ Hf) in H. injection H as <- <-.
    cbn [requests_log CACHE].
    assert (Hlog : exists urls, requests_log w1 = requests_log w ++ urls).
    { destruct (league_config league) as [[[[sp hours] prodid] prefix]|] eqn:Hcfg.
      - destruct (fetch_league_events_frame _ _ _ _ _ _ _ _ Hf) as [_ Hl].
        destruct (Hl _ _ _ _ Hcfg) as [urls Hu]. eauto.
      - unfold fetch_league_events, bindM, lift in Hf. by rewrite Hcfg in Hf. }
    split; [done|]. right. exists b, w1.
    destruct (fetch_league_events_frame _ _ _ _ _ _ _ _ Hf) as [-> _]. done.
  - rewrite (refresh_failed _ _ _ _ _ _ _ _ _ Hf) in H.
    assert (w' = w1) as ->.
    { destruct (CACHE w1 !! league) as [en|]; [destruct (ical_bytes en)|];
        by injection H as _ <-. }
    destruct (fetch_league_events_frame _ _ _ _ _ _ _ _ Hf) as [Hc Hl].
    split; [|by left].
    destruct (league_config league) as [[[[sp hours] prodid] prefix]|] eqn:Hcfg.
    + destruct (Hl _ _ _ _ eq_refl) as [urls Hu]. eauto.
    + unfold fetch_league_events, bindM, lift in Hf. rewrite Hcfg in Hf.
      injection Hf as _ <-. exists []. by rewrite app_nil_r.
Qed.

Lemma get_cached_calendar_effect clock today league (w w' : World) (r : result bytes) :
  get_cached_calendar fromisoformat to_ical upstream clock today league w = (r, w') ->
  (exists urls, requests_log w' = requests_log w ++ urls)
  /\ (CACHE w' = CACHE w
      \/ exists b w1,
           r = Ok b
           /\ is_Some (CACHE w !! league)
           /\ fetch_league_events fromisoformat to_ical upstream today league w
              = (Ok b, w1)
           /\ requests_log w' = requests_log w1
           /\ CACHE w'
              = <[league := {| last_fetch := Some (now_utc clock);
                               ical_bytes := Some b |}]> (CACHE w)).
Proof.
  intros H.
  assert (Hsame : forall x : result bytes, (x, w) = (r, w') ->
            (exists urls, requests_log w' = requests_log w ++ urls)
            /\ (CACHE w' = CACHE w
                \/ exists b w1,
                     r = Ok b
                     /\ is_Some (CACHE w !! league)
                     /\ fetch_league_events fromisoformat to_ical upstream
                          today league w = (Ok b, w1)
                     /\ requests_log w' = requests_log w1
                     /\ CACHE w'
                        = <[league := {| last_fetch := Some (now_utc clock);
                                         ical_bytes := Some b |}]> (CACHE w))).
  { intros x [= _ <-]. split; [|by left]. exists []. by rewrite app_nil_r. }
  destruct (CACHE w !! league) as [entry|] eqn:Hc.
  - rewrite (get_cached_calendar_unfold _ _ _ _ _ _ _ _ Hc) in H.
    assert (Hrefresh :
      refresh fromisoformat to_ical upstream (now_utc clock) today league w
      = (r, w') ->
      (exists urls, requests_log w' = requests_log w ++ urls)
      /\ (CACHE w' = CACHE w
          \/ exists b w1,
               r = Ok b /\ is_Some (Some entry)
               /\ fetch_league_events fromisoformat to_ical upstream
                    today league w = (Ok b, w1)
               /\ requests_log w' = requests_log w1
               /\ CACHE w'
                  = <[league := {| last_fetch := Some (now_utc clock);
                                   ical_bytes := Some b |}]> (CACHE w))).
    { intros Hr. apply refresh_effect in Hr as [Hl [Hcache|(b & w1 & ? & ? & ? & ?)]].
      - split; [done | by left].
      - split; [done|]. right. exists b, w1. by repeat split. }
    destruct (last_fetch entry) as [lf|]; [|by apply Hrefresh].
    destruct (ical_bytes entry) as [b0|]; [|by apply Hrefresh].
    destruct (datetime_sub (now_utc clock) lf) as [age|]; [|by apply Hsame in H].
    destruct (REFRESH_INTERVAL <? age); [by apply Hrefresh | by apply Hsame in H].
  - rewrite (get_cached_calendar_no_entry _ _ _ _ Hc) in H. by apply Hsame in H.
Qed.

Lemma get_cached_calendar_others clock today league (w w' : World)
    (r : result bytes) :
  get_cached_calendar fromisoformat to_ical upstream clock today league w = (r, w') ->
  dom (CACHE w') = dom (CACHE w)
  /\ (forall l, l <> league -> CACHE w' !! l = CACHE w !! l).
Proof.
  intros H.
  apply get_cached_calendar_effect in H
    as [_ [->|(b & w1 & _ & Hsome & _ & _ & ->)]]; [done|].
  split; [by apply dom_insert_lookup_L|].
  intros l Hl. by rewrite lookup_insert_ne.
Qed.

(** X9: whatever a call of [get_cached_calendar] does, it only appends to
    the request log, it keeps the set of cached leagues and the entries of
    the other leagues, and it writes the entry of its league only when a
    fetch succeeded, with the bytes it returns and the time of the call.  A
    league without an entry gets [KeyError] and nothing changes. *)
Theorem cache_written_only_by_success
    (clock today : Z) (league : string) (w w' : World) (r : result bytes) :
  get_cached_calendar fromisoformat to_ical upstream clock today league w = (r, w') ->
  (exists urls, requests_log w' = requests_log w ++ urls)
  /\ dom (CACHE w') = dom (CACHE w)
  /\ (forall l, l <> league -> CACHE w' !! l = CACHE w !! l)
  /\ (CACHE w' = CACHE w
      \/ exists b w1,
           r = Ok b
           /\ fetch_league_events fromisoformat to_ical upstream today league w
              = (Ok b, w1)
           /\ CACHE w' !! league
              = Some {| last_fetch := Some (now_utc clock); ical_bytes := Some b |})
  /\ (CACHE w !! league = None -> r = Raise KeyError /\ w' = w).
Proof.
  intros H.
  pose proof (get_cached_calendar_effect _ _ _ _ _ _ H) as [Hlog Hcache].
  split; [done|].
  destruct Hcache as [Hsame|(b & w1 & -> & Hsome & Hf & _ & Hnew)].
  - rewrite Hsame. do 2 (split; [done|]). split; [by left|].
    intros Hnone. rewrite (get_cached_calendar_no_entry _ _ _ _ Hnone) in H.
    by injection H as <- <-.
  - rewrite Hnew. split; [by apply dom_insert_lookup_L|].
    split; [intros l Hl; by rewrite lookup_insert_ne|].
    split.
    + right. exists b, w1. by rewrite lookup_insert_eq.
    + intros Hnone. rewrite Hnone in Hsome. by destruct Hsome.
Qed.

(** X10: a call that has to refresh, because the entry is empty or more
    than 24 hours old, and whose fetch succeeds, returns the fetched
    bytes and stores them with the time of the call; every call within the
    next 24 hours then returns the same bytes and changes nothing, so no
    request goes upstream. *)
Theorem refresh_then_fresh
    (league : string) (w w1 : World) (entry : cache_entry) (b : bytes)
    (clock today : Z) :
  CACHE w !! league = Some entry ->
  (last_fetch entry = None \/ ical_bytes entry = None
   \/ exists t0, last_fetch entry = Some (now_utc t0)
                 /\ REFRESH_INTERVAL < clock - t0) ->
  fetch_league_events fromisoformat to_ical upstream today league w = (Ok b, w1) ->
  exists w2,
    get_cached_calendar fromisoformat to_ical upstream clock today league w
    = (Ok b, w2)
    /\ requests_log w2 = requests_log w1
    /\ CACHE w2 !! league
       = Some {| last_fetch := Some (now_utc clock); ical_bytes := Some b |}
    /\ forall clock' today',
         clock' - clock <= REFRESH_INTERVAL ->
         get_cached_calendar fromisoformat to_ical upstream clock' today' league w2
         = (Ok b, w2).
Proof.
  intros Hc Hneeds Hf.
  exists {| CACHE := <[league := {| last_fetch := Some (now_utc clock);
                                    ical_bytes := Some b |}]> (CACHE w1);
            requests_log := requests_log w1 |}.
  assert (Hget :
    get_cached_calendar fromisoformat to_ical upstream clock today league w
    = refresh fromisoformat to_ical upstream (now_utc clock) today league w).
  { rewrite (get_cached_calendar_unfold _ _ _ _ _ _ _ _ Hc).
    destruct Hneeds as [->|[Hb|(t0 & -> & Hstale)]]; [done | |].
    - rewrite Hb. by destruct (last_fetch entry).
    - destruct (ical_bytes entry); [|done]. rewrite datetime_sub_utc.
      by replace (REFRESH_INTERVAL <? clock - t0) with true by lia. }
  rewrite Hget, (refresh_ok _ _ _ _ _ _ _ _ _ Hf).
  split; [done|]. split; [done|]. cbn [CACHE].
  split; [by rewrite lookup_insert_eq|].
  intros clock' today' Hfresh.
  rewrite (get_cached_calendar_unfold _ _ _ _ _ _ _
             {| last_fetch := Some (now_utc clock); ical_bytes := Some b |})
    by (cbn [CACHE]; by rewrite lookup_insert_eq).
  cbn [last_fetch ical_bytes]. rewrite datetime_sub_utc.
  by replace (REFRESH_INTERVAL <? clock' - clock) with false by lia.
Qed.


(** ** The feed routes *)

Lemma route_unfold (league : string) (clock today : Z) (w : World) :
  (do* ical_bytes :=
     get_cached_calendar fromisoformat to_ical upstream clock today league in
   ret {| response := ical_bytes; status := 200; mimetype := "text/calendar" |}) w
  = match get_cached_calendar fromisoformat to_ical upstream clock today league w with
    | (Ok b, w') =>
        (Ok {| response := b; status := 200; mimetype := "text/calendar" |}, w')
    | (Raise e, w') => (Raise e, w')
    end.
Proof.
  unfold bindM, ret.
  by destruct (get_cached_calendar _ _ _ _ _ _ w) as [[b|e] w'].
Qed.

Lemma route_world (league : string) (clock today : Z) (w w' : World)
    (r : result Response) :
  (do* ical_bytes :=
     get_cached_calendar fromisoformat to_ical upstream clock today league in
   ret {| response := ical_bytes; status := 200; mimetype := "text/calendar" |}) w
  = (r, w') ->
  exists r0,
    get_cached_calendar fromisoformat to_ical upstream clock today league w = (r0, w').
Proof.
  rewrite route_unfold.
  destruct (get_cached_calendar _ _ _ _ _ _ w) as [[b|e] w0];
    intros [= _ <-]; eauto.
Qed.

(** X11: the two feeds do not touch each other's entry: a request for
    [/nfl.ics] leaves the NBA entry as it was, and a request for
    [/nba.ics] leaves the NFL entry as it was, whether the request
    succeeds or not. *)
Theorem feeds_do_not_interfere (clock today : Z) (w w' : World) (r : result Response) :
  (nfl_ics fromisoformat to_ical upstream clock today w = (r, w') ->
   CACHE w' !! "nba" = CACHE w !! "nba")
  /\ (nba_ics fromisoformat to_ical upstream clock today w = (r, w') ->
      CACHE w' !! "nfl" = CACHE w !! "nfl").
Proof.
  split; intros H; apply route_world in H as [r0 H];
    apply get_cached_calendar_others in H as [_ Hother];
    by apply Hother.
Qed.

Lemma reachable_invariant (w : World) :
  reachable fromisoformat to_ical upstream w ->
  dom (CACHE w) = dom CACHE_init
  /\ forall l entry, CACHE w !! l = Some entry -> entry_wf entry.
Proof.
  induction 1 as [|w w' clock today r _ [IHd IHwf] H|w w' clock today r _ [IHd IHwf] H].
  - split; [done|]. apply CACHE_init_wf.
  - apply route_world in H as [r0 H]. split.
    + apply get_cached_calendar_others in H as [-> _]. done.
    + eapply get_cached_calendar_wf; eauto.
  - apply route_world in H as [r0 H]. split.
    + apply get_cached_calendar_others in H as [-> _]. done.
    + eapply get_cached_calendar_wf; eauto.
Qed.

Lemma raise_means_empty_and_failed clock today league (w w1 : World)
    (entry : cache_entry) (e : exn) :
  CACHE w !! league = Some entry ->
  entry_wf entry ->
  get_cached_calendar fromisoformat to_ical upstream clock today league w
  = (Raise e, w1) ->
  last_fetch entry = None /\ ical_bytes entry = None
  /\ fetch_league_events fromisoformat to_ical upstream today league w
     = (Raise e, w1).
Proof.
  intros Hc Hwf H.
  rewrite (get_cached_calendar_unfold _ _ _ _ _ _ _ _ Hc) in H.
  assert (Hrefresh : forall now,
    refresh fromisoformat to_ical upstream now today league w = (Raise e, w1) ->
    ical_bytes entry = None
    /\ fetch_league_events fromisoformat to_ical upstream today league w
       = (Raise e, w1)).
  { intros now Hr.
    destruct (fetch_league_events fromisoformat to_ical upstream today league w)
      as [[b'|e'] w2] eqn:Hf.
    - rewrite (refresh_ok _ _ _ _ _ _ _ _ _ Hf) in Hr. discriminate.
    - rewrite (refresh_failed _ _ _ _ _ _ _ _ _ Hf) in Hr.
      destruct (fetch_league_events_frame _ _ _ _ _ _ _ _ Hf) as [Hcache _].
      rewrite Hcache, Hc in Hr.
      destruct (ical_bytes entry); [discriminate|]. by injection Hr as -> ->. }
  destruct Hwf as [[Hlf Hb]|(t & b & Hlf & Hb)]; rewrite Hlf in H.
  - apply Hrefresh in H as [_ Hf]. done.
  - rewrite Hb in H. rewrite datetime_sub_utc in H.
    destruct (REFRESH_INTERVAL <? clock - t); [|discriminate].
    apply Hrefresh in H as [Hnone _]. congruence.
Qed.

(** X12: in every world the server can reach from its start, through any
    sequence of feed requests at any times, both leagues have a cache
    entry, with both fields unset or both set.  There a feed request that
    succeeds answers 200 with [text/calendar], and one that raises does so
    because the entry of its league is empty and the refresh failed, with
    the error of the refresh. *)
Theorem reachable_feed_outcomes (w : World) (clock today : Z) :
  reachable fromisoformat to_ical upstream w ->
  (exists nfl nba, CACHE w !! "nfl" = Some nfl /\ entry_wf nfl
                   /\ CACHE w !! "nba" = Some nba /\ entry_wf nba)
  /\ (forall resp w',
        nfl_ics fromisoformat to_ical upstream clock today w = (Ok resp, w')
        \/ nba_ics fromisoformat to_ical upstream clock today w = (Ok resp, w') ->
        status resp = 200 /\ mimetype resp = "text/calendar")
  /\ (forall e w',
        nfl_ics fromisoformat to_ical upstream clock today w = (Raise e, w') ->
        CACHE w !! "nfl" = Some {| last_fetch := None; ical_bytes := None |}
        /\ fetch_league_events fromisoformat to_ical upstream today "nfl" w
           = (Raise e, w'))
  /\ (forall e w',
        nba_ics fromisoformat to_ical upstream clock today w = (Raise e, w') ->
        CACHE w !! "nba" = Some {| last_fetch := None; ical_bytes := None |}
        /\ fetch_league_events fromisoformat to_ical upstream today "nba" w
           = (Raise e, w')).
Proof.
  intros Hreach. destruct (reachable_invariant _ Hreach) as [Hdom Hwf].
  assert (Hentry : forall l, l = "nfl" \/ l = "nba" ->
            exists entry, CACHE w !! l = Some entry /\ entry_wf entry).
  { intros l Hl.
    assert (Hin : l ∈ dom (CACHE w)).
    { rewrite Hdom. unfold CACHE_init. rewrite !dom_insert_L.
      destruct Hl as [-> | ->]; set_solver. }
    apply elem_of_dom in Hin as [entry Hentry]. eauto. }
  assert (Hraise : forall l e w', l = "nfl" \/ l = "nba" ->
            (do* ical_bytes :=
               get_cached_calendar fromisoformat to_ical upstream clock today l in
             ret {| response := ical_bytes; status := 200;
                    mimetype := "text/calendar" |}) w = (Raise e, w') ->
            CACHE w !! l = Some {| last_fetch := None; ical_bytes := None |}
            /\ fetch_league_events fromisoformat to_ical upstream today l w
               = (Raise e, w')).
  { intros l e w' Hl H. rewrite route_unfold in H.
    destruct (get_cached_calendar _ _ _ _ _ _ w) as [[b|e0] w0] eqn:Hget;
      [discriminate|]. injection H as -> ->.
    destruct (Hentry l Hl) as (entry & Hc & Hw).
    destruct (raise_means_empty_and_failed _ _ _ _ _ _ _ Hc Hw Hget)
      as (Hlf & Hb & Hf). split; [|done].
    rewrite Hc. destruct entry as [lf bs]. cbn in Hlf, Hb. by subst. }
  split; [|split; [|split]].
  - destruct (Hentry "nfl" (or_introl eq_refl)) as (nfl & ? & ?).
    destruct (Hentry "nba" (or_intror eq_refl)) as (nba & ? & ?).
    by exists nfl, nba.
  - intros resp w' [H|H]; unfold nfl_ics, nba_ics in H; rewrite route_unfold in H;
      destruct (get_cached_calendar _ _ _ _ _ _ w) as [[b|e0] w0];
      try discriminate; by injection H as <- _.
  - intros e w'. apply Hraise. by left.
  - intros e w'. apply Hraise. by right.
Qed.


(** ** Records are translated one by one, in order *)

(** X13: the calendar built from two event maps put end to end holds the
    events of the first map followed by those of the second, each list in
    the order of its records; and it is built exactly when both parts can
    be built. *)
Theorem build_calendar_concat (today : Z) (d1 d2 : pydict)
    (prodid prefix : string) (hours : Q) :
  (forall cal1 cal2,
      build_calendar_cal fromisoformat today d1 prodid prefix hours = Ok cal1 ->
      build_calendar_cal fromisoformat today d2 prodid prefix hours = Ok cal2 ->
      build_calendar_cal fromisoformat today (d1 ++ d2) prodid prefix hours
      = Ok {| prodid := prodid; version := "2.0";
              components := components cal1 ++ components cal2 |})
  /\ (forall cal,
        build_calendar_cal fromisoformat today (d1 ++ d2) prodid prefix hours = Ok cal ->
        exists cal1 cal2,
          build_calendar_cal fromisoformat today d1 prodid prefix hours = Ok cal1
          /\ build_calendar_cal fromisoformat today d2 prodid prefix hours = Ok cal2
          /\ components cal = components cal1 ++ components cal2).
Proof.
  unfold build_calendar_cal.
  destruct (date_add_days today (-30)) as [sw|]; cbn [bind];
    [|split; intros; discriminate].
  destruct (date_add_days today 365) as [ew|]; cbn [bind];
    [|split; intros; discriminate].
  rewrite dict_values_app, translate_all_app.
  destruct (translate_all _ _ _ _ _ (dict_values d1)) as [c1|]; cbn [bind];
    [|split; intros; discriminate].
  destruct (translate_all _ _ _ _ _ (dict_values d2)) as [c2|]; cbn [bind];
    [|split; intros; discriminate].
  split.
  - by intros cal1 cal2 [= <-] [= <-].
  - intros cal [= <-]. by eexists _, _.
Qed.

End MoreFacts.

(** ** These statements at concrete inputs *)

Lemma iso_to_utc_rewrites_every_Z_witness :
  str_contains "Z" (replace "2025-11-12T18:20Z" "Z" "+00:00") = false
  /\ iso_to_utc IsoFormat.fromisoformat "2025-11-12T18:20Z"
     = iso_to_utc IsoFormat.fromisoformat (replace "2025-11-12T18:20Z" "Z" "+00:00").
Proof.
  exact (iso_to_utc_rewrites_every_Z IsoFormat.fromisoformat "2025-11-12T18:20Z"
           eq_refl).
Defined.

Lemma feed_events_shape_witness :
  exists cal d sp,
    calendar_lines (nfl_calendar [chiefs_bills_event]) = calendar_lines cal
    /\ fetch_events_by_id (two_team_upstream chiefs_bills) sp "nfl" world_init
       = (Ok d, two_teams_fetched world_init)
    /\ version cal = "2.0"
    /\ (length (components cal) <= length d)%nat.
Proof.
  destruct (feed_events_shape IsoFormat.fromisoformat calendar_lines
              (two_team_upstream chiefs_bills) a_today "nfl" world_init
              (two_teams_fetched world_init)
              (calendar_lines (nfl_calendar [chiefs_bills_event])) eq_refl)
    as (cal & d & sp & Hb & Hd & Hv & Hlen & _).
  by exists cal, d, sp.
Defined.

Lemma feed_uids_distinct_witness :
  exists cal d sp,
    calendar_lines (nfl_calendar [chiefs_bills_event]) = calendar_lines cal
    /\ fetch_events_by_id (two_team_upstream chiefs_bills) sp "nfl" world_init
       = (Ok d, two_teams_fetched world_init)
    /\ (forallb is_str_key (keys d) = true -> NoDup (map uid (components cal))).
Proof.
  exact (feed_uids_distinct IsoFormat.fromisoformat calendar_lines
           (two_team_upstream chiefs_bills) a_today "nfl" world_init
           (two_teams_fetched world_init)
           (calendar_lines (nfl_calendar [chiefs_bills_event])) eq_refl).
Defined.

Lemma last_seen_wins_witness :
  pydict_lookup (KStr "401547439") [(KStr "401547439", old_game)] = Some old_game.
Proof.
  apply (proj1 (last_seen_wins [chiefs_bills] [] old_game (KStr "401547439")
                  [] [(KStr "401547439", old_game)] eq_refl)).
  - reflexivity.
  - intros ev' Hin. by apply elem_of_nil in Hin.
Defined.

Lemma dedup_idempotent_witness :
  collect_events ([chiefs_bills; record_tbd] ++ [chiefs_bills; record_tbd]) []
  = collect_events [chiefs_bills; record_tbd] [].
Proof.
  apply (dedup_idempotent [chiefs_bills; record_tbd] []). apply NoDup_nil_2.
Defined.

Lemma requests_of_aggregation_witness :
  exists data teams ts,
    two_team_upstream chiefs_bills (requests_log world_init)
      (base_team_url "football" "nfl") = Ok data
    /\ listing_teams data = Ok teams
    /\ py_iter teams = Ok ts
    /\ requests_log (two_teams_fetched world_init)
       = requests_log world_init
         ++ base_team_url "football" "nfl"
            :: omap (team_request "football" "nfl") ts
    /\ (length (requests_log (two_teams_fetched world_init))
        <= length (requests_log world_init) + 1 + length ts)%nat.
Proof.
  exact (requests_of_aggregation (two_team_upstream chiefs_bills)
           "football" "nfl" world_init (two_teams_fetched world_init)
           [(KStr "401547439", chiefs_bills)] eq_refl).
Defined.

Lemma schedule_failures_tolerated_witness :
  fetch_league_events IsoFormat.fromisoformat calendar_lines listing_only_upstream
    a_today "nfl" world_init
  = (Ok (calendar_lines (nfl_calendar [])),
     {| CACHE := CACHE world_init;
        requests_log :=
          requests_log world_init
          ++ base_team_url "football" "nfl"
             :: omap (team_request "football" "nfl")
                  [team_entry "12" "Kansas City Chiefs";
                   team_entry "2" "Buffalo Bills"] |}).
Proof.
  apply (schedule_failures_tolerated IsoFormat.fromisoformat calendar_lines
           listing_only_upstream a_today "nfl" "football"
           "-//Homepage Sports Calendar//NFL//EN" "nfl" 3%Q world_init nfl_listing
           [team_entry "12" "Kansas City Chiefs"; team_entry "2" "Buffalo Bills"]).
  - reflexivity.
  - reflexivity.
  - reflexivity.
  - reflexivity.
  - intros log team_id. reflexivity.
  - vm_compute. split; discriminate.
Defined.

Lemma listing_failure_propagates_witness :
  fetch_league_events IsoFormat.fromisoformat calendar_lines failing_upstream
    a_today "nfl" world_init
  = (Raise RequestException, logged world_init (base_team_url "football" "nfl")).
Proof.
  apply (proj1 (listing_failure_propagates IsoFormat.fromisoformat calendar_lines
                  failing_upstream a_today "nfl" "football"
                  "-//Homepage Sports Calendar//NFL//EN" "nfl" 3%Q world_init
                  eq_refl)).
  reflexivity.
Defined.

Lemma cache_written_only_by_success_witness :
  dom (CACHE (logged world_init (base_team_url "football" "nfl")))
  = dom (CACHE world_init)
  /\ (forall l, l <> "nfl" ->
        CACHE (logged world_init (base_team_url "football" "nfl")) !! l
        = CACHE world_init !! l).
Proof.
  destruct (cache_written_only_by_success IsoFormat.fromisoformat calendar_lines
              failing_upstream 0 a_today "nfl" world_init
              (logged world_init (base_team_url "football" "nfl"))
              (Raise RequestException) eq_refl)
    as (_ & Hdom & Hother & _).
  by split.
Defined.

Lemma refresh_then_fresh_witness :
  exists w2,
    get_cached_calendar IsoFormat.fromisoformat calendar_lines
      (two_team_upstream chiefs_bills) 0 a_today "nfl" world_init
    = (Ok (calendar_lines (nfl_calendar [chiefs_bills_event])), w2)
    /\ forall clock' today',
         clock' - 0 <= REFRESH_INTERVAL ->
         get_cached_calendar IsoFormat.fromisoformat calendar_lines
           (two_team_upstream chiefs_bills) clock' today' "nfl" w2
         = (Ok (calendar_lines (nfl_calendar [chiefs_bills_event])), w2).
Proof.
  destruct (refresh_then_fresh IsoFormat.fromisoformat calendar_lines
              (two_team_upstream chiefs_bills) "nfl" world_init
              (two_teams_fetched world_init)
              {| last_fetch := None; ical_bytes := None |}
              (calendar_lines (nfl_calendar [chiefs_bills_event]))
              0 a_today eq_refl (or_introl eq_refl) eq_refl)
    as (w2 & Hget & _ & _ & Hfresh).
  by exists w2.
Defined.

Lemma feeds_do_not_interfere_witness :
  CACHE (logged world_init (base_team_url "football" "nfl")) !! "nba"
  = CACHE world_init !! "nba".
Proof.
  apply (proj1 (feeds_do_not_interfere IsoFormat.fromisoformat calendar_lines
                  failing_upstream 0 a_today world_init
                  (logged world_init (base_team_url "football" "nfl"))
                  (Raise RequestException))).
  reflexivity.
Defined.

Lemma reachable_feed_outcomes_witness :
  exists nfl nba,
    CACHE world_init !! "nfl" = Some nfl /\ entry_wf nfl
    /\ CACHE world_init !! "nba" = Some nba /\ entry_wf nba.
Proof.
  apply (proj1 (reachable_feed_outcomes IsoFormat.fromisoformat calendar_lines
                  failing_upstream world_init 0 a_today
                  (reachable_init _ _ _))).
Defined.

Lemma build_calendar_concat_witness :
  build_calendar_cal IsoFormat.fromisoformat a_today
    ([(KStr "401547439", chiefs_bills)] ++ [(KStr "7", record_home_only)])
    "-//Homepage Sports Calendar//NFL//EN" "nfl" 3%Q
  = Ok {| prodid := "-//Homepage Sports Calendar//NFL//EN";
          version := "2.0";
          components := components (nfl_calendar [chiefs_bills_event])
                        ++ components (nfl_calendar []) |}.
Proof.
  apply (proj1 (build_calendar_concat IsoFormat.fromisoformat a_today
                  [(KStr "401547439", chiefs_bills)] [(KStr "7", record_home_only)]
                  "-//Homepage Sports Calendar//NFL//EN" "nfl" 3%Q));
    reflexivity.
Defined.
